(** * picamera-webthing: a shallow embedding of [picamera-webthing.py]

    The program is one class, [PiCameraWebThing], whose methods talk to a
    camera module (picamera), an I2C sensor (smbus), the logger, the clock
    and the tornado IO loop, from three threads: the main thread, the camera
    poller and the sensor poller.

    Methods are embedded as terms of a small free monad [prog] over the
    atomic [action]s the methods perform.  Two semantics are given to the
    same terms: [run], the execution of one method by one thread against a
    hardware model (a parameter of the development), and [pool_step], the
    interleaved execution of several threads with the camera lock. *)

From Stdlib Require Import ZArith List String Ascii Bool Lia.
From Stdlib Require Import Floats DecimalString DecimalPos Permutation Sorted.
Import ListNotations.

Set Warnings "-inexact-float".

Local Open Scope Z_scope.

(** ** Python values and exceptions *)

(** The dynamically typed values that travel through the configuration, the
    camera attributes and the property updates. *)
Inductive pyval : Type :=
| PyNone
| PyBool (b : bool)
| PyInt (z : Z)
| PyFloat (f : float)
| PyFraction (num : Z) (den : positive)
| PyStr (s : string).

(** Instances of [Exception]: everything the hardware layers and the
    builtins used here can raise is one. *)
Inductive exn : Type :=
| ZeroDivisionError
| ValueError
| TypeError
| OverflowError
| PiCameraError (msg : string)
| OSError (errno : Z).

Inductive outcome (A : Type) : Type :=
| Ok (a : A)
| Raise (e : exn).
Arguments Ok {A} a.
Arguments Raise {A} e.

(** ** The outside world: camera, bus, logger, clock, IO loop *)

Inductive cam_attr : Type :=
| Resolution | Rotation | Iso | Framerate | ShutterSpeed | SensorMode | ExposureMode.

(** The calls made on [self.camera]. *)
Inductive cam_op : Type :=
| CamSet (a : cam_attr) (v : pyval)
| CamGetResolution
| CamGetFramerate
| CamGetExposureMode
| CamCapture (format : string) (quality : Z) (use_video_port : pyval)
| CamStartPreview
| CamStopPreview
| CamClose.

Definition cam_result (op : cam_op) : Type :=
  match op with
  | CamGetResolution => (Z * Z)%type
  | CamGetFramerate => pyval
  | CamGetExposureMode => pyval
  | CamCapture _ _ _ => list Byte.byte
  | _ => unit
  end.

(** The calls made on the I2C bus. *)
Inductive bus_op : Type :=
| BusOpen (n : Z)
| BusWriteByte (addr val : Z)
| BusReadByte (addr : Z).

Definition bus_result (op : bus_op) : Type :=
  match op with
  | BusReadByte _ => Byte.byte
  | _ => unit
  end.

Inductive level : Type := DEBUG | INFO | EXCEPTION.

(** The [webthing.Value] objects held by the instance. *)
Inductive value_id : Type :=
| resolution_value
| framerate_value
| exposure_mode_value
| base64_still_image_value
| temperature_value
| humidity_value.

Inductive thread_target : Type := camera_loop_target | sensor_loop_target.

(** The configuration fields cached on [self] by [__init__]. *)
Inductive field : Type :=
| f_device_name
| f_port
| f_si7021_enabled
| f_sensors_update_interval
| f_use_video_port
| f_framerate
| f_iso
| f_rotation
| f_shutter_speed
| f_sensor_mode
| f_exposure_mode
| f_resolution.

(** ** Atomic actions *)

(** A camera call is two actions, so that it has a duration during which
    other threads may run. *)
Inductive action : Type :=
| LockAcquire
| LockRelease
| CamOpen
| CamCall (op : cam_op)
| CamReturn (op : cam_op)
| Bus (op : bus_op)
| Sleep (secs : pyval)
| Log (lvl : level) (msg : string)
| AddCallback (target : value_id) (v : pyval)
| ThreadStart (t : thread_target)
| SelfGet (f : field)
| SelfSet (f : field) (v : pyval).

Definition resp (a : action) : Type :=
  match a with
  | CamOpen => outcome unit
  | CamReturn op => outcome (cam_result op)
  | Bus op => outcome (bus_result op)
  | SelfGet _ => pyval
  | _ => unit
  end.

(** ** Programs *)

Inductive prog (A : Type) : Type :=
| Ret (a : A)
| Throw (e : exn)
| Act (a : action) (k : resp a -> prog A).
Arguments Ret {A} a.
Arguments Throw {A} e.
Arguments Act {A} a k.

Fixpoint bind {A B : Type} (p : prog A) (f : A -> prog B) : prog B :=
  match p with
  | Ret a => f a
  | Throw e => Throw e
  | Act a k => Act a (fun r => bind (k r) f)
  end.

Declare Scope prog_scope.
Delimit Scope prog_scope with prog.
Notation "x <- p ;; q" := (bind p (fun x => q))
  (at level 100, p at next level, right associativity) : prog_scope.
Notation "' pat <- p ;; q" := (bind p (fun x => match x with pat => q end))
  (at level 100, pat pattern, p at next level, right associativity) : prog_scope.
Notation "p ;; q" := (bind p (fun _ => q))
  (at level 100, right associativity) : prog_scope.
Local Open Scope prog_scope.

Definition perform (a : action) : prog (resp a) := Act a (fun r => Ret r).

Definition of_outcome {A : Type} (o : outcome A) : prog A :=
  match o with
  | Ok a => Ret a
  | Raise e => Throw e
  end.

(** [try: p / except Exception as e: h e]. *)
Fixpoint try_except {A : Type} (p : prog A) (h : exn -> prog A) : prog A :=
  match p with
  | Ret a => Ret a
  | Throw e => h e
  | Act a k => Act a (fun r => try_except (k r) h)
  end.

(** [try: p / finally: q]. *)
Fixpoint finally {A : Type} (p : prog A) (q : prog unit) : prog A :=
  match p with
  | Ret a => q ;; Ret a
  | Throw e => q ;; Throw e
  | Act a k => Act a (fun r => finally (k r) q)
  end.

(** [with self.camera_lock: body]: the lock is released on every exit. *)
Definition with_camera_lock {A : Type} (body : prog A) : prog A :=
  perform LockAcquire ;; finally body (perform LockRelease).

(** [self.camera.<op>]: the call, then its return, which may raise. *)
Definition camera (op : cam_op) : prog (cam_result op) :=
  perform (CamCall op) ;;
  r <- perform (CamReturn op) ;;
  of_outcome r.

Definition bus (op : bus_op) : prog (bus_result op) :=
  r <- perform (Bus op) ;;
  of_outcome r.

Definition self_get (f : field) : prog pyval := perform (SelfGet f).
Definition self_set (f : field) (v : pyval) : prog unit := perform (SelfSet f v).
Definition log (lvl : level) (msg : string) : prog unit := perform (Log lvl msg).
Definition add_callback (target : value_id) (v : pyval) : prog unit :=
  perform (AddCallback target v).

(** ** The facade: setters of the three writable properties *)

Definition set_resolution (resolution : pyval) : prog bool :=
  with_camera_lock
    (try_except
       (camera (CamSet Resolution resolution) ;;
        self_set f_resolution resolution ;;
        Ret true)
       (fun _ => log EXCEPTION "Failed to set resolution" ;; Ret false)).

Definition set_framerate (framerate : pyval) : prog bool :=
  with_camera_lock
    (try_except
       (camera (CamSet Framerate framerate) ;;
        self_set f_framerate framerate ;;
        Ret true)
       (fun _ => log EXCEPTION "Failed to set framerate" ;; Ret false)).

Definition set_exposure_mode (exposure_mode : pyval) : prog bool :=
  with_camera_lock
    (try_except
       (camera (CamSet ExposureMode exposure_mode) ;;
        self_set f_exposure_mode exposure_mode ;;
        Ret true)
       (fun _ => log EXCEPTION "Failed to set exposure mode" ;; Ret false)).

(** ** The state of the instance *)

Record Self : Type := mkSelf {
  device_name : pyval;
  port : pyval;
  si7021_enabled : pyval;
  sensors_update_interval : pyval;
  use_video_port : pyval;
  framerate : pyval;
  iso : pyval;
  rotation : pyval;
  shutter_speed : pyval;
  sensor_mode : pyval;
  exposure_mode : pyval;
  resolution : pyval
}.

Definition get_field (f : field) (s : Self) : pyval :=
  match f with
  | f_device_name => device_name s
  | f_port => port s
  | f_si7021_enabled => si7021_enabled s
  | f_sensors_update_interval => sensors_update_interval s
  | f_use_video_port => use_video_port s
  | f_framerate => framerate s
  | f_iso => iso s
  | f_rotation => rotation s
  | f_shutter_speed => shutter_speed s
  | f_sensor_mode => sensor_mode s
  | f_exposure_mode => exposure_mode s
  | f_resolution => resolution s
  end.

Definition field_eqb (f g : field) : bool :=
  match f, g with
  | f_device_name, f_device_name
  | f_port, f_port
  | f_si7021_enabled, f_si7021_enabled
  | f_sensors_update_interval, f_sensors_update_interval
  | f_use_video_port, f_use_video_port
  | f_framerate, f_framerate
  | f_iso, f_iso
  | f_rotation, f_rotation
  | f_shutter_speed, f_shutter_speed
  | f_sensor_mode, f_sensor_mode
  | f_exposure_mode, f_exposure_mode
  | f_resolution, f_resolution => true
  | _, _ => false
  end.

(** [self.<f> = v]. *)
Definition set_field (f : field) (v : pyval) (s : Self) : Self :=
  let upd g := if field_eqb f g then v else get_field g s in
  mkSelf (upd f_device_name) (upd f_port) (upd f_si7021_enabled)
    (upd f_sensors_update_interval) (upd f_use_video_port) (upd f_framerate)
    (upd f_iso) (upd f_rotation) (upd f_shutter_speed) (upd f_sensor_mode)
    (upd f_exposure_mode) (upd f_resolution).

(** ** Execution of one method by one thread *)

(** A hardware model: a state and what each call does to it. *)
Record hardware : Type := mkHardware {
  hw_state : Type;
  cam_open : hw_state -> outcome unit * hw_state;
  cam_exec : forall op : cam_op, hw_state -> outcome (cam_result op) * hw_state;
  bus_exec : forall op : bus_op, hw_state -> outcome (bus_result op) * hw_state
}.

Record world (hw : hardware) : Type := mkWorld {
  self : Self;
  device : hw_state hw
}.
Arguments mkWorld {hw} self device.
Arguments self {hw} w.
Arguments device {hw} w.

(** What one action answers and does to the shared state.  The lock is
    recorded in the trace and given its meaning by the pool below. *)
Definition step {hw : hardware} (a : action) (w : world hw) : resp a * world hw :=
  match a return resp a * world hw with
  | CamOpen => let (r, d) := cam_open hw (device w) in (r, mkWorld (self w) d)
  | CamReturn op => let (r, d) := cam_exec hw op (device w) in (r, mkWorld (self w) d)
  | Bus op => let (r, d) := bus_exec hw op (device w) in (r, mkWorld (self w) d)
  | SelfGet f => (get_field f (self w), w)
  | SelfSet f v => (tt, mkWorld (set_field f v (self w)) (device w))
  | LockAcquire => (tt, w)
  | LockRelease => (tt, w)
  | CamCall _ => (tt, w)
  | Sleep _ => (tt, w)
  | Log _ _ => (tt, w)
  | AddCallback _ _ => (tt, w)
  | ThreadStart _ => (tt, w)
  end.

(** Reads and writes of [self] are not part of the recorded trace. *)
Definition visible (a : action) : bool :=
  match a with
  | SelfGet _ | SelfSet _ _ => false
  | _ => true
  end.

Record result (hw : hardware) (A : Type) : Type := mkResult {
  returned : outcome A;
  final : world hw;
  trace : list action
}.
Arguments mkResult {hw A} returned final trace.
Arguments returned {hw A} r.
Arguments final {hw A} r.
Arguments trace {hw A} r.

Fixpoint run {hw : hardware} {A : Type} (p : prog A) (w : world hw) : result hw A :=
  match p with
  | Ret a => mkResult (Ok a) w []
  | Throw e => mkResult (Raise e) w []
  | Act a k =>
      let (r, w') := step a w in
      let res := run (k r) w' in
      mkResult (returned res) (final res)
        (if visible a then a :: trace res else trace res)
  end.

(** The updates handed to the IO loop, in order. *)
Definition is_push (a : action) : bool :=
  match a with
  | AddCallback _ _ => true
  | _ => false
  end.

Definition pushes (t : list action) : list action := filter is_push t.

(** The messages of [logger.exception], in order. *)
Fixpoint exceptions_logged (t : list action) : list string :=
  match t with
  | [] => []
  | Log EXCEPTION msg :: t' => msg :: exceptions_logged t'
  | _ :: t' => exceptions_logged t'
  end.

(** The lengths slept, in order. *)
Fixpoint slept (t : list action) : list pyval :=
  match t with
  | [] => []
  | Sleep secs :: t' => secs :: slept t'
  | _ :: t' => slept t'
  end.

(** The three externally writable properties and what their setters touch. *)
Inductive writable : Type := W_resolution | W_framerate | W_exposure_mode.

Definition setter (p : writable) : pyval -> prog bool :=
  match p with
  | W_resolution => set_resolution
  | W_framerate => set_framerate
  | W_exposure_mode => set_exposure_mode
  end.

Definition attr_of (p : writable) : cam_attr :=
  match p with
  | W_resolution => Resolution
  | W_framerate => Framerate
  | W_exposure_mode => ExposureMode
  end.

Definition cached (p : writable) : field :=
  match p with
  | W_resolution => f_resolution
  | W_framerate => f_framerate
  | W_exposure_mode => f_exposure_mode
  end.

(** ** Builtins of the Python runtime used by the methods *)

Definition format_int (z : Z) : string := NilZero.string_of_int (Z.to_int z).

(** The binary64 number nearest to an integer (ties to even). *)
Definition sf_of_Z (z : Z) : spec_float := binary_normalize prec emax z 0 false.

(** The binary64 number nearest to [n / d]. *)
Definition sf_of_ratio (n : Z) (d : positive) : spec_float :=
  match n with
  | Z0 => S754_zero false
  | Zpos p => SFdiv prec emax (S754_finite false p 0) (S754_finite false d 0)
  | Zneg p => SFdiv prec emax (S754_finite true p 0) (S754_finite false d 0)
  end.

(** The binary64 number nearest to [c * 10^q], for [c >= 0]. *)
Definition sf_of_decimal (c q : Z) : spec_float :=
  if 0 <=? q then sf_of_Z (c * 10 ^ q)
  else sf_of_ratio c (Z.to_pos (10 ^ (- q))).

(** *** [float(str)] *)

Definition is_space (c : ascii) : bool :=
  match nat_of_ascii c with
  | 32%nat | 9%nat | 10%nat | 11%nat | 12%nat | 13%nat => true
  | _ => false
  end.

Definition digit_of (c : ascii) : option Z :=
  let n := Z.of_nat (nat_of_ascii c) in
  if (48 <=? n) && (n <=? 57) then Some (n - 48) else None.

Definition lower (c : ascii) : ascii :=
  let n := nat_of_ascii c in
  if (Nat.leb 65 n && Nat.leb n 90)%bool then ascii_of_nat (n + 32) else c.

Fixpoint lstrip (s : string) : string :=
  match s with
  | String c r => if is_space c then lstrip r else s
  | EmptyString => s
  end.

Fixpoint rev_string (s acc : string) : string :=
  match s with
  | EmptyString => acc
  | String c r => rev_string r (String c acc)
  end.

Definition strip (s : string) : string :=
  rev_string (lstrip (rev_string (lstrip s) EmptyString)) EmptyString.

Fixpoint map_string (f : ascii -> ascii) (s : string) : string :=
  match s with
  | EmptyString => EmptyString
  | String c r => String (f c) (map_string f r)
  end.

(** Reads a run of decimal digits: their value continuing [acc], how many
    were read, and what follows. *)
Fixpoint read_digits (s : string) (acc : Z) (count : Z) : Z * Z * string :=
  match s with
  | String c r =>
      match digit_of c with
      | Some d => read_digits r (10 * acc + d) (count + 1)
      | None => (acc, count, s)
      end
  | EmptyString => (acc, count, s)
  end.

Definition read_sign (s : string) : bool * string :=
  match s with
  | String "-"%char r => (true, r)
  | String "+"%char r => (false, r)
  | _ => (false, s)
  end.

(** The exponent part [e[+-]ddd] of a float literal, when there is one. *)
Definition read_exponent (s : string) : option Z :=
  match s with
  | EmptyString => Some 0
  | String c r =>
      if Ascii.eqb (lower c) "e"%char then
        let (neg, r1) := read_sign r in
        let '(e, n, rest) := read_digits r1 0 0 in
        if (0 <? n) && String.eqb rest EmptyString
        then Some (if neg then - e else e) else None
      else None
  end.

(** [float(s)] for a string: surrounding white space, a sign, then [inf],
    [infinity], [nan] or a decimal literal with an optional exponent; the
    result is the nearest binary64 number.  Underscores between digits,
    which Python also accepts, are not read here. *)
Definition float_of_string (s : string) : outcome float :=
  let (neg, body) := read_sign (strip s) in
  let name := map_string lower body in
  if String.eqb name "inf" || String.eqb name "infinity"
  then Ok (if neg then neg_infinity else infinity)
  else if String.eqb name "nan" then Ok nan
  else
    let '(ipart, ni, r1) := read_digits body 0 0 in
    let '(mant, nf, r2) :=
      match r1 with
      | String "."%char r => read_digits r ipart 0
      | _ => (ipart, 0, r1)
      end in
    if (ni + nf =? 0) then Raise ValueError
    else
      match read_exponent r2 with
      | None => Raise ValueError
      | Some e =>
          let sf := match mant with
                    | Z0 => S754_zero false
                    | _ => sf_of_decimal mant (e - nf)
                    end in
          Ok (SF2Prim (if neg then SFopp sf else sf))
      end.


(** *** [repr(float)], which is also [str(float)] and ["{}".format(float)] *)

(** The position of the decimal point of a positive rational [n / d]: the
    [p] with [10^(p-1) <= n/d < 10^p]. *)
Fixpoint decpt_up (fuel : nat) (n d : Z) (p : Z) : Z :=
  match fuel with
  | O => p
  | S fuel' => if n <? d * 10 ^ p then p else decpt_up fuel' n d (p + 1)
  end.

Fixpoint decpt_down (fuel : nat) (n d : Z) (p : Z) : Z :=
  match fuel with
  | O => p
  | S fuel' => if d <=? n * 10 ^ (1 - p) then p else decpt_down fuel' n d (p - 1)
  end.

Definition decpt (n d : Z) : Z :=
  if d <=? n then decpt_up 400 n d 1 else decpt_down 400 n d 0.

(** The [digits]-digit decimals next to [n / d] (below and above it), scaled
    to integers, with the one nearer to [n / d] first (ties to even). *)
Definition neighbours (n d p digits : Z) : Z * Z :=
  let s := digits - p in
  let num := if 0 <=? s then n * 10 ^ s else n in
  let den := if 0 <=? s then d else d * 10 ^ (- s) in
  let lo := num / den in
  let r := num mod den in
  match 2 * r ?= den with
  | Lt => (lo, lo + 1)
  | Gt => (lo + 1, lo)
  | Eq => if Z.even lo then (lo, lo + 1) else (lo + 1, lo)
  end.

Definition reads_back (f : float) (c q : Z) : bool :=
  PrimFloat.eqb (SF2Prim (sf_of_decimal c q)) f.

(** The shortest decimal [c * 10^q] that reads back as [f], nearest to [f]
    among the shortest. *)
Fixpoint shortest (fuel : nat) (f : float) (n d p digits : Z) : Z * Z :=
  let (a, b) := neighbours n d p digits in
  let q := p - digits in
  match fuel with
  | O => (a, q)
  | S fuel' =>
      if reads_back f a q then (a, q)
      else if reads_back f b q then (b, q)
      else shortest fuel' f n d p (digits + 1)
  end.

Fixpoint strip_zeros (fuel : nat) (c q : Z) : Z * Z :=
  match fuel with
  | O => (c, q)
  | S fuel' => if (c mod 10 =? 0) && (0 <? c) then strip_zeros fuel' (c / 10) (q + 1) else (c, q)
  end.

Fixpoint zeros (n : nat) : string :=
  match n with
  | O => EmptyString
  | S n' => String "0"%char (zeros n')
  end.

Definition two_digits (e : Z) : string :=
  if e <? 10 then String "0"%char (format_int e) else format_int e.

(** The text of a positive finite float from its digits [ds] and the
    position [p] of its decimal point. *)
Definition layout (ds : string) (p : Z) : string :=
  let nd := Z.of_nat (String.length ds) in
  if (p <=? -4) || (16 <? p) then
    let mantissa :=
      match ds with
      | String c EmptyString => ds
      | String c r => String c (String "."%char r)
      | EmptyString => ds
      end in
    let e := p - 1 in
    let sign := if e <? 0 then "-"%string else "+"%string in
    (mantissa ++ "e" ++ sign ++ two_digits (Z.abs e))%string
  else if p <=? 0 then
    ("0." ++ zeros (Z.to_nat (- p)) ++ ds)%string
  else if nd <=? p then
    (ds ++ zeros (Z.to_nat (p - nd)) ++ ".0")%string
  else
    (substring 0 (Z.to_nat p) ds ++ "." ++
     substring (Z.to_nat p) (Z.to_nat (nd - p)) ds)%string.

Definition format_float (f : float) : string :=
  match Prim2SF f with
  | S754_nan => "nan"
  | S754_infinity s => if s then "-inf" else "inf"
  | S754_zero s => if s then "-0.0" else "0.0"
  | S754_finite s m e =>
      let n := if 0 <=? e then Zpos m * 2 ^ e else Zpos m in
      let d := if 0 <=? e then 1 else 2 ^ (- e) in
      let p := decpt n d in
      let (c0, q0) := shortest 17 (abs f) n d p 1 in
      let (c, q) := strip_zeros 400 c0 q0 in
      let ds := format_int c in
      let p' := q + Z.of_nat (String.length ds) in
      if s then String "-"%char (layout ds p') else layout ds p'
  end.

(** [float(v)]. *)
Definition py_float (v : pyval) : outcome float :=
  match v with
  | PyNone => Raise TypeError
  | PyBool b => Ok (if b then 1%float else 0%float)
  | PyInt z =>
      match sf_of_Z z with
      | S754_infinity _ => Raise OverflowError
      | sf => Ok (SF2Prim sf)
      end
  | PyFloat f => Ok f
  | PyFraction n d =>
      match sf_of_ratio n d with
      | S754_infinity _ => Raise OverflowError
      | sf => Ok (SF2Prim sf)
      end
  | PyStr s => float_of_string s
  end.

(** An integer that is known to fit, as a float. *)
Definition float_of_int (z : Z) : float := SF2Prim (sf_of_Z z).

(** [x / y] on floats. *)
Definition py_truediv (x y : float) : outcome float :=
  if PrimFloat.eqb y 0%float then Raise ZeroDivisionError else Ok (x / y)%float.

(** Truth value of [v] in an [if]. *)
Definition py_truthy (v : pyval) : bool :=
  match v with
  | PyNone => false
  | PyBool b => b
  | PyInt z => negb (z =? 0)
  | PyFloat f => negb (PrimFloat.eqb f 0%float)
  | PyFraction n _ => negb (n =? 0)
  | PyStr s => negb (String.eqb s EmptyString)
  end.

(** [time.sleep(secs)]: refuses what is not a number, a negative length and
    a length that is not finite. *)
Definition time_sleep (secs : pyval) : prog unit :=
  match secs with
  | PyInt z => if z <? 0 then Throw ValueError else perform (Sleep secs)
  | PyBool _ => perform (Sleep secs)
  | PyFloat f =>
      if PrimFloat.is_nan f then Throw ValueError
      else if PrimFloat.ltb f 0%float then Throw ValueError
      else if PrimFloat.is_infinity f then Throw OverflowError
      else perform (Sleep secs)
  | _ => Throw TypeError
  end.

Arguments time_sleep !secs.

(** *** [base64.b64encode] and [bytes.decode] *)

Definition b64_alphabet : string :=
  "ABCDEFGHIJKLMNOPQRSTUVWXYZabcdefghijklmnopqrstuvwxyz0123456789+/".

Definition b64_digit (n : N) : Byte.byte :=
  match String.get (N.to_nat (N.modulo n 64)) b64_alphabet with
  | Some c => byte_of_ascii c
  | None => byte_of_ascii "="%char
  end.

Definition b64_pad : Byte.byte := byte_of_ascii "="%char.

Fixpoint b64encode (data : list Byte.byte) : list Byte.byte :=
  match data with
  | [] => []
  | [a] =>
      let n := (Byte.to_N a * 65536)%N in
      [b64_digit (n / 262144); b64_digit (n / 4096); b64_pad; b64_pad]
  | [a; b] =>
      let n := (Byte.to_N a * 65536 + Byte.to_N b * 256)%N in
      [b64_digit (n / 262144); b64_digit (n / 4096); b64_digit (n / 64); b64_pad]
  | a :: b :: c :: rest =>
      let n := (Byte.to_N a * 65536 + Byte.to_N b * 256 + Byte.to_N c)%N in
      b64_digit (n / 262144) :: b64_digit (n / 4096) :: b64_digit (n / 64)
        :: b64_digit n :: b64encode rest
  end.

(** [bytes.decode('utf-8')] on the output of [b64encode], which is ASCII:
    each byte is one character. *)
Definition decode_utf8 (data : list Byte.byte) : string := string_of_list_byte data.

Arguments format_int : simpl never.
Arguments format_float : simpl never.
Arguments float_of_string : simpl never.
Arguments sf_of_Z : simpl never.
Arguments sf_of_ratio : simpl never.
Arguments b64encode : simpl never.
Arguments decode_utf8 : simpl never.

(** ** Reading the camera *)

Definition get_still_image : prog (list Byte.byte) :=
  uvp <- self_get f_use_video_port ;;
  log DEBUG "Capturing image <use_video_port:%s>" ;;
  _image_stream <-
    with_camera_lock
      (uvp' <- self_get f_use_video_port ;;
       data <- camera (CamCapture "jpeg" 10 uvp') ;;
       log DEBUG "Capture took %f seconds" ;;
       Ret data) ;;
  Ret (b64encode _image_stream).

Definition format_resolution (_width _height : Z) : string :=
  (format_int _width ++ "x" ++ format_int _height)%string.

Arguments format_resolution : simpl never.

Definition get_resolution : prog pyval :=
  '(_width, _height) <- with_camera_lock (camera CamGetResolution) ;;
  Ret (PyStr (format_resolution _width _height)).

Definition get_framerate : prog pyval :=
  _fr <- with_camera_lock (v <- camera CamGetFramerate ;; of_outcome (py_float v)) ;;
  Ret (PyStr (format_float _fr)).

Definition get_exposure_mode : prog pyval :=
  with_camera_lock (camera CamGetExposureMode).

(** ** The camera poller *)

Definition log_exception (msg : string) : exn -> prog unit :=
  fun _ => log EXCEPTION msg.

Definition is_none (v : pyval) : bool :=
  match v with
  | PyNone => true
  | _ => false
  end.

(** [1.0 / float(self.framerate)]. *)
Definition wait_interval (framerate : pyval) : outcome float :=
  match py_float framerate with
  | Ok d => py_truediv 1%float d
  | Raise e => Raise e
  end.

(** The end of an iteration: compute the interval, log it, sleep. *)
Definition camera_loop_wait : prog unit :=
  fr <- self_get f_framerate ;;
  wait <- of_outcome (wait_interval fr) ;;
  fr' <- self_get f_framerate ;;
  _ <- of_outcome (py_float fr') ;;
  log DEBUG "Camera sleeping for %.2f (fps: %.2f)" ;;
  time_sleep (PyFloat wait).

(** The four updates of one turn of [while True:], each in its own
    [try:].  The [Value] objects are created in [__init__] and never
    replaced, so the [is not None] tests on them hold, and so does the one
    on the image, which is a [bytes] object. *)
Definition update_image : prog unit :=
  try_except
    (image <- get_still_image ;;
     add_callback base64_still_image_value (PyStr (decode_utf8 image)))
    (log_exception "Exception occured while updating image property").

Definition update_resolution : prog unit :=
  try_except
    (resolution <- get_resolution ;;
     if is_none resolution then Ret tt
     else add_callback resolution_value resolution)
    (log_exception "Exception occured while updating resolution property").

Definition update_framerate : prog unit :=
  try_except
    (framerate <- get_framerate ;;
     if is_none framerate then Ret tt
     else add_callback framerate_value framerate)
    (log_exception "Exception occured while updating framerate property").

Definition update_exposure_mode : prog unit :=
  try_except
    (exposure_mode <- get_exposure_mode ;;
     if is_none exposure_mode then Ret tt
     else add_callback exposure_mode_value exposure_mode)
    (log_exception "Exception occured while updating exposure_mode property").

Definition camera_loop_iteration : prog unit :=
  update_image ;;
  update_resolution ;;
  update_framerate ;;
  update_exposure_mode ;;
  camera_loop_wait.

(** The first [n] turns of the loop, which never ends by itself. *)
Fixpoint camera_loop_turns (n : nat) : prog unit :=
  match n with
  | O => Ret tt
  | S n' => camera_loop_iteration ;; camera_loop_turns n'
  end.

Definition camera_loop (n : nat) : prog unit :=
  log INFO "Camera loop running" ;;
  camera_loop_turns n.

(** ** Startup of the camera *)

(** [picamera.PiCamera()] is the action [CamOpen]; the lock created next is
    the one lock of the pool, free at the start. *)
Definition camera_setup : prog unit :=
  opened <- perform CamOpen ;;
  of_outcome opened ;;
  with_camera_lock
    (v <- self_get f_resolution ;; camera (CamSet Resolution v) ;;
     v <- self_get f_rotation ;; camera (CamSet Rotation v) ;;
     v <- self_get f_iso ;; camera (CamSet Iso v) ;;
     camera (CamSet Framerate (PyFloat 30)) ;;
     v <- self_get f_shutter_speed ;; camera (CamSet ShutterSpeed v) ;;
     v <- self_get f_sensor_mode ;; camera (CamSet SensorMode v) ;;
     v <- self_get f_exposure_mode ;; camera (CamSet ExposureMode v) ;;
     camera CamStartPreview) ;;
  log INFO "Waiting for camera module warmup..." ;;
  time_sleep (PyInt 3) ;;
  with_camera_lock
    (v <- self_get f_framerate ;; camera (CamSet Framerate v)) ;;
  perform (ThreadStart camera_loop_target).

Definition cleanup : prog unit :=
  camera CamStopPreview ;;
  camera CamClose.

(** ** The sensor poller *)

(** The local variables of [get_si7021_values]. *)
Record si7021_locals : Type := mkLocals {
  temperature : option float;
  humidity : option float;
  data0 : Z;
  data1 : Z
}.

Definition set_temperature (t : option float) (l : si7021_locals) : si7021_locals :=
  mkLocals t (humidity l) (data0 l) (data1 l).
Definition set_humidity (h : option float) (l : si7021_locals) : si7021_locals :=
  mkLocals (temperature l) h (data0 l) (data1 l).
Definition set_data0 (b : Byte.byte) (l : si7021_locals) : si7021_locals :=
  mkLocals (temperature l) (humidity l) (Z.of_N (Byte.to_N b)) (data1 l).
Definition set_data1 (b : Byte.byte) (l : si7021_locals) : si7021_locals :=
  mkLocals (temperature l) (humidity l) (data0 l) (Z.of_N (Byte.to_N b)).

(** The body of a [try:] as its statements, each acting on the locals.  When
    a statement raises, the statements after it are skipped and the locals
    are what the statements before it made them. *)
Fixpoint try_block {L : Type} (stmts : list (L -> prog L)) (l : L)
  : prog (L * option exn) :=
  match stmts with
  | [] => Ret (l, None)
  | stmt :: rest =>
      r <- try_except (l' <- stmt l ;; Ret (inl l')) (fun e => Ret (inr e)) ;;
      match r with
      | inl l' => try_block rest l'
      | inr e => Ret (l, Some e)
      end
  end.

Definition get_si7021_values : prog (option float * option float) :=
  '(l, raised) <-
    try_block
      [ (fun l => bus (BusOpen 1) ;; Ret l);
        (fun l => bus (BusWriteByte 0x40 0xF5) ;; Ret l);
        (fun l => time_sleep (PyFloat 0.3) ;; Ret l);
        (fun l => b <- bus (BusReadByte 0x40) ;; Ret (set_data0 b l));
        (fun l => b <- bus (BusReadByte 0x40) ;; Ret (set_data1 b l));
        (fun l =>
           Ret (set_humidity
                  (Some (float_of_int ((data0 l * 256 + data1 l) * 125) / 65536 - 6)%float)
                  l));
        (fun l => time_sleep (PyFloat 0.3) ;; Ret l);
        (fun l => bus (BusWriteByte 0x40 0xF3) ;; Ret l);
        (fun l => time_sleep (PyFloat 0.3) ;; Ret l);
        (fun l => b <- bus (BusReadByte 0x40) ;; Ret (set_data0 b l));
        (fun l => b <- bus (BusReadByte 0x40) ;; Ret (set_data1 b l));
        (fun l =>
           Ret (set_temperature
                  (Some (float_of_int (data0 l * 256 + data1 l) * 175.72 / 65536 - 46.85)%float)
                  l));
        (fun l =>
           match temperature l with
           | Some t => Ret (set_temperature (Some (t * 1.8 + 32)%float) l)
           | None => Throw TypeError
           end) ]
      (mkLocals None None 0 0) ;;
  match raised with
  | Some _ => log EXCEPTION "Failed to get si7021 sensor data"
  | None => Ret tt
  end ;;
  Ret (temperature l, humidity l).

Definition sensor_loop_iteration : prog unit :=
  try_except
    (enabled <- self_get f_si7021_enabled ;;
     '(temperature, humidity) <-
       (if py_truthy enabled then get_si7021_values else Ret (None, None)) ;;
     match temperature with
     | Some t => add_callback temperature_value (PyFloat t)
     | None => Ret tt
     end ;;
     match humidity with
     | Some h => add_callback humidity_value (PyFloat h)
     | None => Ret tt
     end)
    (log_exception "Exception occured while updating sensor properties") ;;
  interval <- self_get f_sensors_update_interval ;;
  time_sleep interval.

Fixpoint sensor_loop_turns (n : nat) : prog unit :=
  match n with
  | O => Ret tt
  | S n' => sensor_loop_iteration ;; sensor_loop_turns n'
  end.

Definition sensor_loop (n : nat) : prog unit :=
  log INFO "Sensor loop running" ;;
  sensor_loop_turns n.

Definition sensor_setup : prog unit :=
  enabled <- self_get f_si7021_enabled ;;
  if py_truthy enabled then perform (ThreadStart sensor_loop_target) else Ret tt.

(** ** The device and its properties *)

Record metadata : Type := mkMetadata {
  md_type : string;
  md_unit : string;
  md_choices : option (list string);
  md_friendlyName : string;
  md_description : string
}.

Record property : Type := mkProperty {
  prop_name : string;
  prop_metadata : metadata;
  prop_value : value_id
}.

Record thing : Type := mkThing {
  thing_name : pyval;
  thing_type : string;
  thing_description : string;
  thing_properties : list property
}.

Definition add_property (p : property) (t : thing) : thing :=
  mkThing (thing_name t) (thing_type t) (thing_description t) (thing_properties t ++ [p]).

(** A [dict] with string keys, in insertion order. *)
Definition dict : Type := list (string * Z).

Fixpoint dict_get (d : dict) (k : string) : option Z :=
  match d with
  | [] => None
  | (k', v) :: d' => if String.eqb k k' then Some v else dict_get d' k
  end.

Definition dict_keys (d : dict) : list string := map fst d.

(** [sorted(l, key = key)]: a stable sort. *)
Fixpoint insert_sorted {A : Type} (key : A -> Z) (x : A) (l : list A) : list A :=
  match l with
  | [] => [x]
  | y :: l' => if key x <=? key y then x :: l else y :: insert_sorted key x l'
  end.

Definition sorted {A : Type} (key : A -> Z) (l : list A) : list A :=
  fold_right (insert_sorted key) [] l.

(** [EXPOSURE_MODES.__getitem__] on the keys of [EXPOSURE_MODES]. *)
Definition getitem (d : dict) (k : string) : Z :=
  match dict_get d k with
  | Some v => v
  | None => 0
  end.

Definition resolution_choices : list string :=
  ["320x240"; "640x480"; "800x600"; "1024x768"; "1296x972"; "1640x1232"; "3280x2464"]%string.

Definition framerate_choices : list string :=
  ["0.0"; "0.1"; "0.5"; "1.0"; "2.0"; "3.0"; "4.0"; "5.0"; "6.0"; "7.0"; "8.0"; "9.0";
   "10.0"; "15.0"; "20.0"; "30.0"]%string.

(** [EXPOSURE_MODES] is [picamera.PiCamera.EXPOSURE_MODES], a constant of
    the camera library. *)
Definition webthing_setup (EXPOSURE_MODES : dict) : prog thing :=
  name <- self_get f_device_name ;;
  let thing := mkThing name "camera" "A Web Thing enabled PiCamera" [] in
  let thing :=
    add_property
      (mkProperty "resolution"
         (mkMetadata "choice" "" (Some resolution_choices) "Resolution"
            "The current camera resolution")
         resolution_value) thing in
  let thing :=
    add_property
      (mkProperty "framerate"
         (mkMetadata "choice" "FPS" (Some framerate_choices) "Framerate"
            "The current camera frame rate")
         framerate_value) thing in
  let thing :=
    add_property
      (mkProperty "stillImage"
         (mkMetadata "stillImage" "base64" None "Image" "A still image from the camera")
         base64_still_image_value) thing in
  let sorted_exposure_modes := sorted (getitem EXPOSURE_MODES) (dict_keys EXPOSURE_MODES) in
  let thing :=
    add_property
      (mkProperty "exposureMode"
         (mkMetadata "choice" "" (Some sorted_exposure_modes) "Exposure"
            "A still image from the camera")
         exposure_mode_value) thing in
  enabled <- self_get f_si7021_enabled ;;
  thing <-
    (if py_truthy enabled then
       log INFO "Temperature/humidity properties enabled" ;;
       let thing :=
         add_property
           (mkProperty "temperature"
              (mkMetadata "label" "°" None "Temperature" "The current camera temperature")
              temperature_value) thing in
       let thing :=
         add_property
           (mkProperty "humidity"
              (mkMetadata "label" "%" None "Humidity" "The current camera humidity level")
              humidity_value) thing in
       Ret thing
     else Ret thing) ;;
  _ <- self_get f_port ;;
  Ret thing.

(** [__init__] after the configuration is loaded into [self]. *)
Definition init (EXPOSURE_MODES : dict) : prog thing :=
  _ <- self_get f_device_name ;;
  log INFO "Starting PiCamera Web Thing: %s" ;;
  sensor_setup ;;
  camera_setup ;;
  webthing_setup EXPOSURE_MODES.

(** ** A scripted camera and bus, for running the methods *)

(** The exposure modes of the camera library, with their indices. *)
Definition picamera_EXPOSURE_MODES : dict :=
  [("off", 0); ("auto", 1); ("night", 2); ("nightpreview", 3); ("backlight", 4);
   ("spotlight", 5); ("sports", 6); ("snow", 7); ("beach", 8); ("verylong", 9);
   ("fixedfps", 10); ("antishake", 11); ("fireworks", 12)]%string.

Record fake_device : Type := mkFake {
  fake_resolution : Z * Z;
  fake_framerate : pyval;
  fake_exposure_mode : pyval;
  fake_frames : list (outcome (list Byte.byte));
  fake_reads : list (outcome Byte.byte)
}.

(** ["<width>x<height>"] read as two numbers. *)
Definition parse_resolution (s : string) : option (Z * Z) :=
  let '(w, nw, r1) := read_digits s 0 0 in
  match r1 with
  | String c r2 =>
      let '(h, nh, r3) := read_digits r2 0 0 in
      if Ascii.eqb (lower c) "x"%char && (0 <? nw) && (0 <? nh)
         && String.eqb r3 EmptyString
      then Some (w, h) else None
  | EmptyString => None
  end.

Definition fake_set (a : cam_attr) (v : pyval) (d : fake_device)
  : outcome unit * fake_device :=
  match a with
  | Resolution =>
      match v with
      | PyStr s =>
          match parse_resolution s with
          | Some wh =>
              (Ok tt, mkFake wh (fake_framerate d) (fake_exposure_mode d)
                        (fake_frames d) (fake_reads d))
          | None => (Raise (PiCameraError "Invalid resolution"), d)
          end
      | _ => (Raise (PiCameraError "Invalid resolution"), d)
      end
  | Framerate =>
      match py_float v with
      | Ok f =>
          if PrimFloat.ltb 0%float f && PrimFloat.leb f 90%float
          then (Ok tt, mkFake (fake_resolution d) v (fake_exposure_mode d)
                         (fake_frames d) (fake_reads d))
          else (Raise (PiCameraError "Invalid framerate"), d)
      | Raise e => (Raise e, d)
      end
  | ExposureMode =>
      match v with
      | PyStr s =>
          match dict_get picamera_EXPOSURE_MODES s with
          | Some _ =>
              (Ok tt, mkFake (fake_resolution d) (fake_framerate d) v
                        (fake_frames d) (fake_reads d))
          | None => (Raise (PiCameraError "Invalid exposure mode"), d)
          end
      | _ => (Raise (PiCameraError "Invalid exposure mode"), d)
      end
  | _ => (Ok tt, d)
  end.

Definition fake_cam_exec (op : cam_op) (d : fake_device)
  : outcome (cam_result op) * fake_device :=
  match op return outcome (cam_result op) * fake_device with
  | CamSet a v => fake_set a v d
  | CamGetResolution => (Ok (fake_resolution d), d)
  | CamGetFramerate => (Ok (fake_framerate d), d)
  | CamGetExposureMode => (Ok (fake_exposure_mode d), d)
  | CamCapture _ _ _ =>
      match fake_frames d with
      | frame :: rest =>
          (frame, mkFake (fake_resolution d) (fake_framerate d) (fake_exposure_mode d)
                    rest (fake_reads d))
      | [] => (Raise (PiCameraError "No frame"), d)
      end
  | CamStartPreview => (Ok tt, d)
  | CamStopPreview => (Ok tt, d)
  | CamClose => (Ok tt, d)
  end.

Definition fake_bus_exec (op : bus_op) (d : fake_device)
  : outcome (bus_result op) * fake_device :=
  match op return outcome (bus_result op) * fake_device with
  | BusOpen _ => (Ok tt, d)
  | BusWriteByte _ _ => (Ok tt, d)
  | BusReadByte _ =>
      match fake_reads d with
      | b :: rest =>
          (b, mkFake (fake_resolution d) (fake_framerate d) (fake_exposure_mode d)
                (fake_frames d) rest)
      | [] => (Raise (OSError 5), d)
      end
  end.

Definition fake : hardware :=
  mkHardware fake_device (fun d => (Ok tt, d)) fake_cam_exec fake_bus_exec.

Definition fake_self : Self :=
  mkSelf (PyStr "camera") (PyInt 8888) (PyBool true) (PyInt 60) (PyBool true)
    (PyFloat 1) (PyInt 0) (PyInt 0) (PyInt 0) (PyInt 0) (PyStr "auto") (PyStr "1024x768").

Definition fake_world (frames : list (outcome (list Byte.byte)))
  (reads : list (outcome Byte.byte)) : world fake :=
  @mkWorld fake fake_self (mkFake (1024, 768) (PyFloat 1) (PyStr "auto") frames reads).

(** ** Interleaved execution of several threads *)

(** The threads that remain to run, the state they share and the thread
    that holds [camera_lock], if any. *)
Record pool (hw : hardware) : Type := mkPool {
  threads : list (prog unit);
  shared : world hw;
  holder : option nat
}.
Arguments mkPool {hw} threads shared holder.
Arguments threads {hw} p.
Arguments shared {hw} p.
Arguments holder {hw} p.

Fixpoint replace_nth {A : Type} (n : nat) (x : A) (l : list A) : list A :=
  match l, n with
  | [], _ => []
  | _ :: l', O => x :: l'
  | y :: l', S n' => y :: replace_nth n' x l'
  end.

(** The holder of the lock after thread [tid] performed [a]. *)
Definition holder_after (a : action) (tid : nat) (h : option nat) : option nat :=
  match a with
  | LockAcquire => Some tid
  | LockRelease => None
  | _ => h
  end.

(** Whether [a] has to wait: [acquire] blocks while the lock is held. *)
Definition blocked (a : action) (h : option nat) : bool :=
  match a, h with
  | LockAcquire, Some _ => true
  | _, _ => false
  end.

(** Thread [tid] performs its next action.  [acquire] on a lock that is
    held blocks: the thread does not move. *)
Definition pool_step {hw : hardware} (tid : nat) (p : pool hw) : pool hw :=
  match nth_error (threads p) tid with
  | Some (Act a k) =>
      if blocked a (holder p) then p
      else
        let (r, w') := step a (shared p) in
        mkPool (replace_nth tid (k r) (threads p)) w' (holder_after a tid (holder p))
  | _ => p
  end.

Definition run_schedule {hw : hardware} (schedule : list nat) (p : pool hw) : pool hw :=
  fold_left (fun p tid => pool_step tid p) schedule p.

Definition start {hw : hardware} (w : world hw) (ts : list (prog unit)) : pool hw :=
  mkPool ts w None.

(** A thread is inside a camera call between its [CamCall] and its
    [CamReturn]. *)
Definition in_camera_call (p : prog unit) : bool :=
  match p with
  | Act (CamReturn _) _ => true
  | _ => false
  end.

(** A thread is about to start a camera call. *)
Definition at_camera_call (p : prog unit) : bool :=
  match p with
  | Act (CamCall _) _ => true
  | _ => false
  end.

Fixpoint holder_covers (i : nat) (h : option nat) (ts : list (prog unit)) : bool :=
  match ts with
  | [] => true
  | t :: ts' =>
      (if in_camera_call t || at_camera_call t
       then match h with Some j => Nat.eqb i j | None => false end
       else true)
      && holder_covers (S i) h ts'
  end.

(** The handler of remote writes: the writes it serves, in order. *)
Fixpoint serve (writes : list (writable * pyval)) : prog unit :=
  match writes with
  | [] => Ret tt
  | (p, v) :: rest => setter p v ;; serve rest
  end.

(** ** What the hardware answers to a sequence of calls *)

(** Calls on the device in sequence, stopping at the first that raises. *)
Definition and_then {S A B : Type} (m : S -> outcome A * S)
  (f : A -> S -> outcome B * S) : S -> outcome B * S :=
  fun s =>
    let (o, s') := m s in
    match o with
    | Ok a => f a s'
    | Raise e => (Raise e, s')
    end.

(** The bus transaction that measures relative humidity: open, command
    [0xF5], two reads. *)
Definition humidity_phase (hw : hardware)
  : hw_state hw -> outcome (Byte.byte * Byte.byte) * hw_state hw :=
  and_then (bus_exec hw (BusOpen 1)) (fun _ =>
  and_then (bus_exec hw (BusWriteByte 0x40 0xF5)) (fun _ =>
  and_then (bus_exec hw (BusReadByte 0x40)) (fun b0 =>
  and_then (bus_exec hw (BusReadByte 0x40)) (fun b1 =>
  fun d => (Ok (b0, b1), d))))).

(** The bus transaction that measures temperature: command [0xF3], two
    reads. *)
Definition temperature_phase (hw : hardware)
  : hw_state hw -> outcome (Byte.byte * Byte.byte) * hw_state hw :=
  and_then (bus_exec hw (BusWriteByte 0x40 0xF3)) (fun _ =>
  and_then (bus_exec hw (BusReadByte 0x40)) (fun b0 =>
  and_then (bus_exec hw (BusReadByte 0x40)) (fun b1 =>
  fun d => (Ok (b0, b1), d)))).

Definition byte_value (b : Byte.byte) : Z := Z.of_N (Byte.to_N b).

(** The conversion formulas as the specification words them:
    [((data0*256 + data1) * 125 / 65536.0) - 6] and
    [(((data0*256 + data1) * 175.72 / 65536.0) - 46.85) * 1.8 + 32]. *)
Definition spec_humidity (data0 data1 : Byte.byte) : float :=
  (float_of_int ((byte_value data0 * 256 + byte_value data1) * 125) / 65536 - 6)%float.

Definition spec_temperature (data0 data1 : Byte.byte) : float :=
  ((float_of_int (byte_value data0 * 256 + byte_value data1) * 175.72 / 65536 - 46.85)
   * 1.8 + 32)%float.

(** The update a poller hands to the IO loop for a value it obtained, and
    the message it logs for one it could not obtain. *)
Definition pushed (target : value_id) (o : outcome pyval) : list action :=
  match o with
  | Ok PyNone => []
  | Ok v => [AddCallback target v]
  | Raise _ => []
  end.

Definition logged {A : Type} (msg : string) (o : outcome A) : list string :=
  match o with
  | Ok _ => []
  | Raise _ => [msg]
  end.

Definition outcome_map {A B : Type} (f : A -> B) (o : outcome A) : outcome B :=
  match o with
  | Ok a => Ok (f a)
  | Raise e => Raise e
  end.

Definition outcome_bind {A B : Type} (o : outcome A) (f : A -> outcome B) : outcome B :=
  match o with
  | Ok a => f a
  | Raise e => Raise e
  end.


(** The choices declared for the property called [name]. *)
Definition choices_of (name : string) (t : thing) : option (list string) :=
  match find (fun p => String.eqb (prop_name p) name) (thing_properties t) with
  | Some p => md_choices (prop_metadata p)
  | None => None
  end.

Definition has_property (name : string) (t : thing) : bool :=
  existsb (fun p => String.eqb (prop_name p) name) (thing_properties t).

(** What one update of the camera poller amounts to: it returns normally,
    leaves [self] alone and the device in state [d], hands [ps] to the IO
    loop and logs the exceptions [ls]. *)
Record update_spec {hw : hardware} (w : world hw) (r : result hw unit)
  (d : hw_state hw) (ps : list action) (ls : list string) : Prop := {
  us_returned : returned r = Ok tt;
  us_final : final r = mkWorld (self w) d;
  us_pushes : pushes (trace r) = ps;
  us_logged : exceptions_logged (trace r) = ls
}.

(** The value of each property as computed from what the camera answered. *)
Definition image_of (o : outcome (list Byte.byte)) : outcome pyval :=
  outcome_map (fun data => PyStr (decode_utf8 (b64encode data))) o.

Definition resolution_of (o : outcome (Z * Z)) : outcome pyval :=
  outcome_map (fun wh => PyStr (format_resolution (fst wh) (snd wh))) o.

Definition framerate_of (o : outcome pyval) : outcome pyval :=
  outcome_bind o (fun v => outcome_map (fun f => PyStr (format_float f)) (py_float v)).


(** A world whose configured framerate is [0]. *)
Definition zero_framerate_world : world fake :=
  @mkWorld fake (set_field f_framerate (PyInt 0) fake_self)
    (mkFake (1024, 768) (PyInt 0) (PyStr "auto") [] []).

(** A bus on which the humidity is read and the temperature read fails. *)
Definition temperature_failure_world : world fake :=
  fake_world [] [Ok Byte.x20; Ok Byte.x00; Raise (OSError 121)].

(** The trace of a camera call, and of a block run under the lock. *)
Definition call (op : cam_op) : list action := [CamCall op; CamReturn op].

Definition locked (t : list action) : list action := LockAcquire :: t ++ [LockRelease].




(** ** Lock discipline *)

(** Where a thread stands with respect to [camera_lock]: it does not hold
    it, it holds it, or it holds it and is inside a camera call. *)
Inductive mode : Type := Unlocked | Locked | InCall.

(** The mode after an action, when the action is allowed in the mode: the
    lock is taken only when not held and released only when held, a camera
    call starts only under the lock, and nothing else happens during it. *)
Definition next_mode (a : action) (m : mode) : option mode :=
  match a, m with
  | LockAcquire, Unlocked => Some Locked
  | LockAcquire, _ => None
  | LockRelease, Locked => Some Unlocked
  | LockRelease, _ => None
  | CamCall _, Locked => Some InCall
  | CamCall _, _ => None
  | CamReturn _, InCall => Some Locked
  | CamReturn _, _ => None
  | _, InCall => None
  | _, _ => Some m
  end.

(** [follows m p post]: started in mode [m], the program [p] performs only
    allowed actions, whatever the answers, and ends (returning or raising)
    in mode [post]. *)
Fixpoint follows {A : Type} (m : mode) (p : prog A) (post : mode) : Prop :=
  match p with
  | Ret _ => m = post
  | Throw _ => m = post
  | Act a k =>
      match next_mode a m with
      | Some m' => forall r, follows m' (k r) post
      | None => False
      end
  end.

Definition holds_lock (m : mode) : bool :=
  match m with
  | Unlocked => false
  | Locked => true
  | InCall => true
  end.

Definition is_holder (h : option nat) (i : nat) : bool :=
  match h with
  | Some j => Nat.eqb j i
  | None => false
  end.

(** Every thread of the pool follows the discipline from the mode it is in,
    and the threads that are not [Unlocked] are the holder of the lock. *)
Definition thread_ok (h : option nat) (i : nat) (t : prog unit) : Prop :=
  exists m, follows m t Unlocked /\ holds_lock m = is_holder h i.

Definition pool_ok {hw : hardware} (p : pool hw) : Prop :=
  forall i t, nth_error (threads p) i = Some t -> thread_ok (holder p) i t.

(** The threads that use the camera: the main thread while it sets the
    camera up, the camera poller, the sensor poller and the handlers of
    remote writes. *)
Definition server_threads (n m : nat) (handlers : list (list (writable * pyval)))
  : list (prog unit) :=
  camera_setup :: camera_loop n :: sensor_loop m :: map serve handlers.

(** Two threads that capture without taking the lock. *)
Definition unguarded_capture : prog unit :=
  camera (CamCapture "jpeg" 10 (PyBool true)) ;; Ret tt.

Definition key_le {A : Type} (key : A -> Z) (x y : A) : Prop := key x <= key y.

(** How many updates of [target] a trace hands to the IO loop. *)
Definition pushes_to (target : value_id) (t : list action) : nat :=
  List.length
    (filter (fun a => match a, target with
                      | AddCallback resolution_value _, resolution_value
                      | AddCallback framerate_value _, framerate_value
                      | AddCallback exposure_mode_value _, exposure_mode_value
                      | AddCallback base64_still_image_value _, base64_still_image_value
                      | AddCallback temperature_value _, temperature_value
                      | AddCallback humidity_value _, humidity_value => true
                      | _, _ => false
                      end) t).

(** Ten captures of which the fourth fails. *)
Definition nine_of_ten_world : world fake :=
  let frame := Ok [Byte.xff; Byte.xd8; Byte.xff] in
  fake_world
    [frame; frame; frame; Raise (PiCameraError "capture failed"); frame; frame; frame;
     frame; frame; frame]
    [].

(** The value of a decimal numeral read from its most significant digit,
    continuing [acc]. *)
Fixpoint uint_value (d : Decimal.uint) (acc : Z) : Z :=
  match d with
  | Decimal.Nil => acc
  | Decimal.D0 d' => uint_value d' (10 * acc)
  | Decimal.D1 d' => uint_value d' (10 * acc + 1)
  | Decimal.D2 d' => uint_value d' (10 * acc + 2)
  | Decimal.D3 d' => uint_value d' (10 * acc + 3)
  | Decimal.D4 d' => uint_value d' (10 * acc + 4)
  | Decimal.D5 d' => uint_value d' (10 * acc + 5)
  | Decimal.D6 d' => uint_value d' (10 * acc + 6)
  | Decimal.D7 d' => uint_value d' (10 * acc + 7)
  | Decimal.D8 d' => uint_value d' (10 * acc + 8)
  | Decimal.D9 d' => uint_value d' (10 * acc + 9)
  end.

(** A string that does not continue a run of digits. *)
Definition stops_digits (s : string) : bool :=
  match s with
  | EmptyString => true
  | String c _ => match digit_of c with Some _ => false | None => true end
  end.

(** ** Further observations on traces *)

(** The writable property whose cached field is [f], if any: the fields
    the setters leave alone are the others. *)
Definition fields_agree_except (f : field) (s s' : Self) : Prop :=
  forall g, g <> f -> get_field g s' = get_field g s.

(** The calls made on the bus, in order. *)
Fixpoint bus_ops (t : list action) : list bus_op :=
  match t with
  | [] => []
  | Bus op :: t' => op :: bus_ops t'
  | _ :: t' => bus_ops t'
  end.

(** The whole transaction with the sensor, as the bus sees it. *)
Definition si7021_protocol : list bus_op :=
  [BusOpen 1; BusWriteByte 0x40 0xF5; BusReadByte 0x40; BusReadByte 0x40;
   BusWriteByte 0x40 0xF3; BusReadByte 0x40; BusReadByte 0x40].

(** Actions on the camera or its lock. *)
Definition touches_camera (a : action) : bool :=
  match a with
  | LockAcquire | LockRelease | CamOpen | CamCall _ | CamReturn _ => true
  | _ => false
  end.

(** Actions on the hardware, camera or bus. *)
Definition touches_hardware (a : action) : bool :=
  match a with
  | CamOpen | CamCall _ | CamReturn _ | Bus _ => true
  | _ => false
  end.

(** The threads started, in order. *)
Fixpoint threads_started (t : list action) : list thread_target :=
  match t with
  | [] => []
  | ThreadStart target :: t' => target :: threads_started t'
  | _ :: t' => threads_started t'
  end.

Definition property_names (t : thing) : list string := map prop_name (thing_properties t).

Fixpoint count_from (start : Z) (n : nat) : list Z :=
  match n with
  | O => []
  | S n' => start :: count_from (start + 1) n'
  end.

(** Every raw 16-bit reading the sensor can return. *)
Definition raw_readings : list Z := count_from 0 (Z.to_nat 65536).

Definition between (lo hi x : float) : bool := PrimFloat.leb lo x && PrimFloat.leb x hi.

(** The humidity and the temperature computed from a raw reading, as in
    [get_si7021_values]. *)
Definition humidity_of_raw (raw : Z) : float :=
  (float_of_int (raw * 125) / 65536 - 6)%float.

Definition temperature_of_raw (raw : Z) : float :=
  ((float_of_int raw * 175.72 / 65536 - 46.85) * 1.8 + 32)%float.

Definition leaves_camera_alone (t : list action) : bool :=
  forallb (fun a => negb (touches_camera a)) t.

(** A bus on which the whole transaction succeeds, with the lowest
    humidity reading and the highest temperature reading. *)
Definition extreme_readings_world : world fake :=
  fake_world [] [Ok Byte.x00; Ok Byte.x00; Ok Byte.xff; Ok Byte.xff].

(** The names and the [Value] objects of the properties every device has,
    and of those it has with the sensor. *)
Definition camera_property_names : list string :=
  ["resolution"; "framerate"; "stillImage"; "exposureMode"]%string.

Definition sensor_property_names : list string := ["temperature"; "humidity"]%string.

Definition property_values (t : thing) : list value_id := map prop_value (thing_properties t).

Definition leaves_hardware_alone (t : list action) : bool :=
  forallb (fun a => negb (touches_hardware a)) t.

(** The sensor thread, when [__init__] starts it. *)
Definition sensor_thread (s : Self) : list thread_target :=
  if py_truthy (si7021_enabled s) then [sensor_loop_target] else [].

(** ** What happens while the lock is held *)

(** The actions a thread performs between [acquire] and [release] without
    waiting on anything but the camera: camera calls, accesses to [self],
    log entries and the release itself. *)
Definition quick (a : action) : bool :=
  match a with
  | CamCall _ | CamReturn _ | LockRelease | SelfGet _ | SelfSet _ _ | Log _ _ => true
  | _ => false
  end.

(** The discipline of [next_mode], with only quick actions under the lock. *)
Definition next_mode_calm (a : action) (m : mode) : option mode :=
  match m with
  | Unlocked => next_mode a m
  | _ => if quick a then next_mode a m else None
  end.

Fixpoint calm {A : Type} (m : mode) (p : prog A) (post : mode) : Prop :=
  match p with
  | Ret _ => m = post
  | Throw _ => m = post
  | Act a k =>
      match next_mode_calm a m with
      | Some m' => forall r, calm m' (k r) post
      | None => False
      end
  end.

Definition thread_calm (h : option nat) (i : nat) (t : prog unit) : Prop :=
  exists m, calm m t Unlocked /\ holds_lock m = is_holder h i.

(** The holder of the lock is one of the threads, and every thread is calm
    from the mode it is in. *)
Definition pool_calm {hw : hardware} (p : pool hw) : Prop :=
  (forall i, holder p = Some i -> (i < List.length (threads p))%nat)
  /\ forall i t, nth_error (threads p) i = Some t -> thread_calm (holder p) i t.

Definition finished (t : prog unit) : bool :=
  match t with
  | Act _ _ => false
  | _ => true
  end.

(** Whether thread [tid] has a next action and need not wait for the lock. *)
Definition can_move {hw : hardware} (p : pool hw) (tid : nat) : bool :=
  match nth_error (threads p) tid with
  | Some (Act a _) => negb (blocked a (holder p))
  | _ => false
  end.

(** No thread can move although some thread has not finished. *)
Definition deadlocked {hw : hardware} (p : pool hw) : bool :=
  negb (forallb finished (threads p))
  && negb (existsb (can_move p) (seq 0 (List.length (threads p)))).

(** The next action of the holder of the lock is a quick one. *)
Definition holder_is_quick {hw : hardware} (p : pool hw) : bool :=
  match holder p with
  | None => true
  | Some i =>
      match nth_error (threads p) i with
      | Some (Act a _) => quick a
      | _ => false
      end
  end.

(** A thread that sleeps under the lock. *)
Definition sleeps_under_lock : prog unit :=
  with_camera_lock (time_sleep (PyInt 3)).

(** A thread that takes the lock twice. *)
Definition takes_lock_twice : prog unit :=
  with_camera_lock (with_camera_lock (Ret tt)).

(* ================================================================= *)
(** * Theorems *)

Lemma get_set_field_same (f : field) (v : pyval) (s : Self) :
  get_field f (set_field f v s) = v.
Proof. destruct f; reflexivity. Qed.

Lemma get_set_field_other (f g : field) (v : pyval) (s : Self) :
  f <> g -> get_field g (set_field f v s) = get_field g s.
Proof. destruct f, g; intros H; try reflexivity; congruence. Qed.

(** C1. An external write of resolution, framerate or exposure mode returns
    [False] and leaves the cached field of [self] as it was when the camera
    raises on the assignment; it returns [True] and the cached field is the
    written value when the camera accepts it. *)
Theorem setter_reports_hardware_outcome
  (hw : hardware) (p : writable) (v : pyval) (w : world hw) :
  let r := run (setter p v) w in
  match fst (cam_exec hw (CamSet (attr_of p) v) (device w)) with
  | Raise _ =>
      returned r = Ok false /\
      get_field (cached p) (self (final r)) = get_field (cached p) (self w)
  | Ok _ =>
      returned r = Ok true /\
      get_field (cached p) (self (final r)) = v
  end.
Proof.
  destruct p; cbn;
    destruct (cam_exec hw _ (device w)) as [[u|e] d]; cbn; split; reflexivity.
Qed.

(** The setters on the scripted camera: a string that is not a resolution
    is refused, and the cached resolution stays. *)
Example set_resolution_refused :
  let r := run (set_resolution (PyStr "wide")) (fake_world [] []) in
  returned r = Ok false
  /\ resolution (self (final r)) = PyStr "1024x768"
  /\ exceptions_logged (trace r) = ["Failed to set resolution"%string].
Proof. vm_compute. repeat split; reflexivity. Qed.

Example set_exposure_mode_accepted :
  let r := run (set_exposure_mode (PyStr "night")) (fake_world [] []) in
  returned r = Ok true /\ exposure_mode (self (final r)) = PyStr "night".
Proof. vm_compute. repeat split; reflexivity. Qed.

(** ** Running composed programs *)

Lemma run_bind {hw : hardware} {A B : Type} (p : prog A) (f : A -> prog B) (w : world hw) :
  run (bind p f) w =
  match returned (run p w) with
  | Ok a =>
      let r := run (f a) (final (run p w)) in
      mkResult (returned r) (final r) (trace (run p w) ++ trace r)
  | Raise e => mkResult (Raise e) (final (run p w)) (trace (run p w))
  end.
Proof.
  revert w; induction p as [a|e|a k IH]; intros w; cbn.
  - destruct (run (f a) w); reflexivity.
  - reflexivity.
  - destruct (step a w) as [r w']. rewrite IH.
    destruct (returned (run (k r) w')); cbn; destruct (visible a); reflexivity.
Qed.

Lemma run_try_except {hw : hardware} {A : Type} (p : prog A) (h : exn -> prog A)
  (w : world hw) :
  run (try_except p h) w =
  match returned (run p w) with
  | Ok a => mkResult (Ok a) (final (run p w)) (trace (run p w))
  | Raise e =>
      let r := run (h e) (final (run p w)) in
      mkResult (returned r) (final r) (trace (run p w) ++ trace r)
  end.
Proof.
  revert w; induction p as [a|e|a k IH]; intros w; cbn.
  - reflexivity.
  - destruct (run (h e) w); reflexivity.
  - destruct (step a w) as [r w']. rewrite IH.
    destruct (returned (run (k r) w')); cbn; destruct (visible a); reflexivity.
Qed.

(** ** Resolution *)



(** *** The scripted camera reads back what [format_resolution] writes *)

Lemma read_digits_stop (s : string) (acc count : Z) :
  stops_digits s = true -> read_digits s acc count = (acc, count, s).
Proof.
  destruct s as [|c r]; [reflexivity|]. cbn.
  destruct (digit_of c); [discriminate|reflexivity].
Qed.

Lemma read_digits_digit (c : ascii) (r : string) (v acc count : Z) :
  digit_of c = Some v ->
  read_digits (String c r) acc count = read_digits r (10 * acc + v) (count + 1).
Proof. intros H. cbn. rewrite H. reflexivity. Qed.

Lemma read_digits_numeral (d : Decimal.uint) (rest : string) (acc count : Z) :
  stops_digits rest = true ->
  read_digits (NilEmpty.string_of_uint d ++ rest) acc count
  = (uint_value d acc, count + Z.of_nat (Decimal.nb_digits d), rest).
Proof.
  intros Hrest. revert acc count.
  induction d as [|d IH|d IH|d IH|d IH|d IH|d IH|d IH|d IH|d IH|d IH]; intros acc count;
    cbn [NilEmpty.string_of_uint String.append uint_value Decimal.nb_digits];
    [rewrite Z.add_0_r; apply read_digits_stop, Hrest|..];
    erewrite read_digits_digit by reflexivity;
    rewrite IH, Nat2Z.inj_succ, ?Z.add_0_r; f_equal; f_equal; lia.
Qed.

Lemma uint_value_acc (d : Decimal.uint) (acc : positive) :
  uint_value d (Zpos acc) = Zpos (Pos.of_uint_acc d acc).
Proof.
  revert acc.
  induction d as [|d IH|d IH|d IH|d IH|d IH|d IH|d IH|d IH|d IH|d IH]; intros acc;
    cbn [uint_value Pos.of_uint_acc]; [reflexivity|..];
    rewrite <- IH; f_equal; lia.
Qed.

Lemma uint_value_of_uint (d : Decimal.uint) : uint_value d 0 = Z.of_N (Pos.of_uint d).
Proof.
  induction d as [|d IH|d IH|d IH|d IH|d IH|d IH|d IH|d IH|d IH|d IH];
    cbn [uint_value Pos.of_uint]; [reflexivity|exact IH|..];
    cbn [Z.of_N]; rewrite <- uint_value_acc; reflexivity.
Qed.

Lemma read_digits_format_int (z : Z) (rest : string) :
  0 <= z -> stops_digits rest = true ->
  exists n, 0 < n /\ read_digits (format_int z ++ rest) 0 0 = (z, n, rest).
Proof.
  intros Hz Hrest. unfold format_int.
  destruct z as [|p|p]; [| |lia].
  - exists 1. split; [lia|]. cbn -[read_digits].
    rewrite (read_digits_digit _ _ 0) by reflexivity. now rewrite read_digits_stop.
  - cbn [Z.to_int NilZero.string_of_int].
    assert (Hnn := Unsigned.to_uint_nonnil p).
    assert (Hs : NilZero.string_of_uint (Pos.to_uint p)
                 = NilEmpty.string_of_uint (Pos.to_uint p))
      by (destruct (Pos.to_uint p); [congruence|reflexivity..]).
    rewrite Hs, read_digits_numeral by exact Hrest.
    rewrite uint_value_of_uint, Unsigned.of_to.
    eexists; split; [|reflexivity].
    destruct (Pos.to_uint p); [congruence|..]; cbn [Decimal.nb_digits]; lia.
Qed.

Lemma parse_format_resolution (width height : Z) :
  0 <= width -> 0 <= height ->
  parse_resolution (format_resolution width height) = Some (width, height).
Proof.
  intros Hw Hh. unfold parse_resolution, format_resolution.
  destruct (read_digits_format_int width ("x" ++ format_int height) Hw eq_refl)
    as (nw & Hnw & ->).
  cbn [String.append].
  replace (format_int height) with (format_int height ++ "")%string
    by (clear; induction (format_int height) as [|c s IH]; cbn; congruence).
  destruct (read_digits_format_int height "" Hh eq_refl) as (nh & Hnh & ->).
  apply Z.ltb_lt in Hnw, Hnh. rewrite Hnw, Hnh. reflexivity.
Qed.

Lemma resolution_round_trip_scripted
  (width height : Z) (frames : list (outcome (list Byte.byte)))
  (reads : list (outcome Byte.byte)) :
  0 <= width -> 0 <= height ->
  let text := PyStr (format_resolution width height) in
  returned (run (set_resolution text ;; get_resolution) (fake_world frames reads)) = Ok text.
Proof.
  intros Hw Hh text. subst text. cbn.
  rewrite (parse_format_resolution width height Hw Hh). reflexivity.
Qed.

(** A resolution with a leading zero is accepted by the scripted camera but
    is not the rendering of its width and height. *)
Example resolution_leading_zero :
  returned (run (set_resolution (PyStr "0640x480") ;; get_resolution) (fake_world [] []))
  = Ok (PyStr "640x480").
Proof. reflexivity. Qed.

(** ** The sensor *)

(** C5. What [get_si7021_values] returns is the two conversion formulas
    applied to the bytes read in each phase of the transaction; for the
    humidity bytes [0x20], [0x00] the formula gives [9.625]. *)
Theorem si7021_conversion (hw : hardware) (w : world hw) :
  returned (run get_si7021_values w) =
  match humidity_phase hw (device w) with
  | (Ok (h0, h1), d) =>
      match temperature_phase hw d with
      | (Ok (t0, t1), _) => Ok (Some (spec_temperature t0 t1), Some (spec_humidity h0 h1))
      | (Raise _, _) => Ok (None, Some (spec_humidity h0 h1))
      end
  | (Raise _, _) => Ok (None, None)
  end
  /\ spec_humidity Byte.x20 Byte.x00 = 9.625%float.
Proof.
  split; [|reflexivity].
  unfold humidity_phase, temperature_phase, and_then. cbn.
  destruct (bus_exec hw (BusOpen 1) (device w)) as [[u|e] d1]; cbn; [|reflexivity].
  destruct (bus_exec hw (BusWriteByte 64 245) d1) as [[u'|e] d2]; cbn; [|reflexivity].
  destruct (bus_exec hw (BusReadByte 64) d2) as [[b0|e] d3]; cbn; [|reflexivity].
  destruct (bus_exec hw (BusReadByte 64) d3) as [[b1|e] d4]; cbn; [|reflexivity].
  destruct (bus_exec hw (BusWriteByte 64 243) d4) as [[u''|e] d5]; cbn; [|reflexivity].
  destruct (bus_exec hw (BusReadByte 64) d5) as [[b2|e] d6]; cbn; [|reflexivity].
  destruct (bus_exec hw (BusReadByte 64) d6) as [[b3|e] d7]; cbn; reflexivity.
Qed.

(** The conversion at sample readings, as Python computes them. *)
Example temperature_sample :
  format_float (spec_temperature Byte.x66 Byte.x4c) = "74.06098583984377"%string
  /\ format_float (spec_humidity Byte.xff Byte.xff) = "118.99809265136719"%string.
Proof. vm_compute. split; reflexivity. Qed.

(** ** The camera poller *)

Lemma pushes_app (s t : list action) : pushes (s ++ t) = pushes s ++ pushes t.
Proof. apply filter_app. Qed.

Lemma exceptions_logged_app (s t : list action) :
  exceptions_logged (s ++ t) = exceptions_logged s ++ exceptions_logged t.
Proof.
  induction s as [|a s IH]; [reflexivity|].
  destruct a; cbn; try exact IH. destruct lvl; cbn; rewrite ?IH; reflexivity.
Qed.

Ltac case_hardware :=
  repeat (cbn;
          match goal with
          | |- context [bus_exec ?hw ?op ?d] =>
              destruct (bus_exec hw op d) as [[?|?] ?]
          | |- context [cam_exec ?hw ?op ?d] =>
              destruct (cam_exec hw op d) as [[?|?] ?]
          | |- context [if ?b then _ else _] => destruct b
          end);
  cbn.

Lemma time_sleep_quiet (hw : hardware) (v : pyval) (w : world hw) :
  filter is_push (trace (run (time_sleep v) w)) = [].
Proof.
  destruct v; cbn; try reflexivity;
    repeat match goal with
           | |- context [if ?b then _ else _] => destruct b; cbn
           end; reflexivity.
Qed.

Lemma run_update_image (hw : hardware) (w : world hw) :
  let od := cam_exec hw (CamCapture "jpeg" 10 (use_video_port (self w))) (device w) in
  update_spec w (run update_image w) (snd od)
    (pushed base64_still_image_value (image_of (fst od)))
    (logged "Exception occured while updating image property" (fst od)).
Proof.
  cbn. destruct (cam_exec hw _ (device w)) as [[data|e] d]; cbn; split; reflexivity.
Qed.

Lemma run_update_resolution (hw : hardware) (w : world hw) :
  let od := cam_exec hw CamGetResolution (device w) in
  update_spec w (run update_resolution w) (snd od)
    (pushed resolution_value (resolution_of (fst od)))
    (logged "Exception occured while updating resolution property" (fst od)).
Proof.
  cbn. destruct (cam_exec hw _ (device w)) as [[[wd ht]|e] d]; cbn; split; reflexivity.
Qed.

Lemma run_update_framerate (hw : hardware) (w : world hw) :
  let od := cam_exec hw CamGetFramerate (device w) in
  update_spec w (run update_framerate w) (snd od)
    (pushed framerate_value (framerate_of (fst od)))
    (logged "Exception occured while updating framerate property" (framerate_of (fst od))).
Proof.
  cbn. destruct (cam_exec hw _ (device w)) as [[v|e] d]; cbn; [|split; reflexivity].
  destruct (py_float v) as [f|e]; cbn; split; reflexivity.
Qed.

Lemma run_update_exposure_mode (hw : hardware) (w : world hw) :
  let od := cam_exec hw CamGetExposureMode (device w) in
  update_spec w (run update_exposure_mode w) (snd od)
    (pushed exposure_mode_value (fst od))
    (logged "Exception occured while updating exposure_mode property" (fst od)).
Proof.
  cbn. destruct (cam_exec hw _ (device w)) as [[v|e] d]; cbn; [|split; reflexivity].
  destruct v; cbn; split; reflexivity.
Qed.

Lemma camera_loop_wait_quiet (hw : hardware) (w : world hw) :
  let r := run camera_loop_wait w in
  final r = w /\ pushes (trace r) = [] /\ exceptions_logged (trace r) = [].
Proof.
  cbn. destruct w as [s d]; cbn.
  destruct (wait_interval (framerate s)) as [t|e] eqn:Hw; cbn; [|repeat split; reflexivity].
  unfold wait_interval in Hw. destruct (py_float (framerate s)) as [f|e]; [|discriminate].
  cbn.
  repeat match goal with
         | |- context [if ?b then _ else _] => destruct b; cbn
         end; repeat split; reflexivity.
Qed.

Lemma camera_loop_wait_ignores_device (hw : hardware) (s : Self) (d d' : hw_state hw) :
  returned (run camera_loop_wait (mkWorld s d)) = returned (run camera_loop_wait (mkWorld s d')).
Proof.
  cbn. destruct (wait_interval (framerate s)) as [t|e] eqn:Hw; cbn; [|reflexivity].
  unfold wait_interval in Hw. destruct (py_float (framerate s)) as [f|e]; [|discriminate].
  cbn.
  repeat match goal with
         | |- context [if ?b then _ else _] => destruct b; cbn
         end; reflexivity.
Qed.

Lemma camera_iteration_spec (hw : hardware) (w : world hw) :
  let uvp := use_video_port (self w) in
  let image := cam_exec hw (CamCapture "jpeg" 10 uvp) (device w) in
  let res := cam_exec hw CamGetResolution (snd image) in
  let rate := cam_exec hw CamGetFramerate (snd res) in
  let mode := cam_exec hw CamGetExposureMode (snd rate) in
  let r := run camera_loop_iteration w in
  returned r = returned (run camera_loop_wait (mkWorld (self w) (snd mode)))
  /\ final r = mkWorld (self w) (snd mode)
  /\ pushes (trace r) =
       pushed base64_still_image_value (image_of (fst image))
       ++ pushed resolution_value (resolution_of (fst res))
       ++ pushed framerate_value (framerate_of (fst rate))
       ++ pushed exposure_mode_value (fst mode)
  /\ exceptions_logged (trace r) =
       logged "Exception occured while updating image property" (fst image)
       ++ logged "Exception occured while updating resolution property" (fst res)
       ++ logged "Exception occured while updating framerate property"
            (framerate_of (fst rate))
       ++ logged "Exception occured while updating exposure_mode property" (fst mode).
Proof.
  intros uvp image res rate mode r.
  destruct (run_update_image hw w) as [R1 F1 P1 L1].
  fold uvp image in R1, F1, P1, L1.
  pose (w1 := mkWorld (self w) (snd image)).
  destruct (run_update_resolution hw w1) as [R2 F2 P2 L2].
  cbn [self device w1] in R2, F2, P2, L2. fold res in R2, F2, P2, L2.
  pose (w2 := mkWorld (self w) (snd res)).
  destruct (run_update_framerate hw w2) as [R3 F3 P3 L3].
  cbn [self device w2] in R3, F3, P3, L3. fold rate in R3, F3, P3, L3.
  pose (w3 := mkWorld (self w) (snd rate)).
  destruct (run_update_exposure_mode hw w3) as [R4 F4 P4 L4].
  cbn [self device w3] in R4, F4, P4, L4. fold mode in R4, F4, P4, L4.
  pose (w4 := mkWorld (self w) (snd mode)).
  destruct (camera_loop_wait_quiet hw w4) as (F5 & P5 & L5).
  subst r. unfold camera_loop_iteration.
  rewrite run_bind, R1, F1. cbn [returned final trace].
  fold w1. rewrite run_bind, R2, F2. cbn [returned final trace].
  fold w2. rewrite run_bind, R3, F3. cbn [returned final trace].
  fold w3. rewrite run_bind, R4, F4. cbn [returned final trace].
  fold w4. rewrite F5.
  rewrite !pushes_app, !exceptions_logged_app, P1, P2, P3, P4, P5, L1, L2, L3, L4, L5.
  rewrite !app_nil_r. repeat split; reflexivity.
Qed.

(** C6. In an iteration of the camera loop every exception of the capture
    and of the three read-backs is caught and logged: the iteration still
    makes all four camera calls in order, pushes exactly the values it
    obtained, and returns or raises as its final wait alone decides. *)
Theorem camera_iteration_contains_hardware_failures (hw : hardware) (w : world hw) :
  let uvp := use_video_port (self w) in
  let image := cam_exec hw (CamCapture "jpeg" 10 uvp) (device w) in
  let res := cam_exec hw CamGetResolution (snd image) in
  let rate := cam_exec hw CamGetFramerate (snd res) in
  let mode := cam_exec hw CamGetExposureMode (snd rate) in
  let r := run camera_loop_iteration w in
  returned r = returned (run camera_loop_wait w)
  /\ final r = mkWorld (self w) (snd mode)
  /\ pushes (trace r) =
       pushed base64_still_image_value (image_of (fst image))
       ++ pushed resolution_value (resolution_of (fst res))
       ++ pushed framerate_value (framerate_of (fst rate))
       ++ pushed exposure_mode_value (fst mode)
  /\ exceptions_logged (trace r) =
       logged "Exception occured while updating image property" (fst image)
       ++ logged "Exception occured while updating resolution property" (fst res)
       ++ logged "Exception occured while updating framerate property"
            (framerate_of (fst rate))
       ++ logged "Exception occured while updating exposure_mode property" (fst mode).
Proof.
  intros uvp image res rate mode r.
  destruct (camera_iteration_spec hw w) as (R & F & P & L).
  repeat split; [|exact F|exact P|exact L].
  fold r in R. rewrite R. destruct w as [s d]. apply camera_loop_wait_ignores_device.
Qed.

(** The loop goes on through hardware failures: when the wait of the first
    turn succeeds, so does every turn. *)
Lemma camera_loop_survives_hardware_failures (hw : hardware) (n : nat) (w : world hw) :
  returned (run camera_loop_wait w) = Ok tt ->
  returned (run (camera_loop n) w) = Ok tt.
Proof.
  intros Hwait. unfold camera_loop. cbn.
  change (returned (run (camera_loop_turns n) w) = Ok tt).
  revert w Hwait. induction n as [|n IH]; intros w Hwait; [reflexivity|].
  cbn [camera_loop_turns]. rewrite run_bind.
  destruct (camera_iteration_spec hw w) as (R & F & _).
  cbv zeta in R, F.
  assert (Hret : returned (run camera_loop_iteration w) = Ok tt).
  { rewrite R, <- Hwait. destruct w as [s d]. apply camera_loop_wait_ignores_device. }
  rewrite Hret. cbn [returned]. apply IH. rewrite F.
  rewrite <- Hwait. destruct w as [s d]. apply camera_loop_wait_ignores_device.
Qed.

(** Ten turns in which one capture fails: nine images are pushed, the
    failure is logged once and the loop is still running. *)
Example nine_of_ten_captures :
  let r := run (camera_loop 10) nine_of_ten_world in
  returned r = Ok tt
  /\ pushes_to base64_still_image_value (trace r) = 9%nat
  /\ exceptions_logged (trace r) = ["Exception occured while updating image property"%string]
  /\ pushes_to resolution_value (trace r) = 10%nat.
Proof. vm_compute. repeat split; reflexivity. Qed.

(** ** The sleep interval *)



(** ** The sensor poller *)

(** C3 (amended). In a sensor iteration the temperature is pushed only when
    both phases of the transaction succeeded, and then the humidity is
    pushed too; a bus error in the humidity phase pushes neither; a bus
    error in the temperature phase still pushes the humidity already read. *)
Theorem sensor_iteration_pushes (hw : hardware) (w : world hw) :
  pushes (trace (run sensor_loop_iteration w)) =
  if py_truthy (si7021_enabled (self w)) then
    match humidity_phase hw (device w) with
    | (Ok (h0, h1), d) =>
        match temperature_phase hw d with
        | (Ok (t0, t1), _) =>
            [AddCallback temperature_value (PyFloat (spec_temperature t0 t1));
             AddCallback humidity_value (PyFloat (spec_humidity h0 h1))]
        | (Raise _, _) => [AddCallback humidity_value (PyFloat (spec_humidity h0 h1))]
        end
    | (Raise _, _) => []
    end
  else [].
Proof.
  destruct w as [s d0]. unfold humidity_phase, temperature_phase, and_then.
  cbn. destruct (py_truthy (si7021_enabled s)); case_hardware;
    rewrite ?time_sleep_quiet; reflexivity.
Qed.

(** C3 is false as stated: a read that fails in the temperature phase is
    logged, and the humidity is pushed all the same. *)
Lemma humidity_pushed_after_temperature_failure :
  let r := run sensor_loop_iteration temperature_failure_world in
  fst (temperature_phase fake (snd (humidity_phase fake (device temperature_failure_world))))
    = Raise (OSError 121)
  /\ exceptions_logged (trace r) = ["Failed to get si7021 sensor data"%string]
  /\ pushes (trace r) = [AddCallback humidity_value (PyFloat 9.625)].
Proof. repeat split; vm_compute; reflexivity. Qed.

(** ** Startup *)


(** ** The device *)

Section Sorting.
Context {A : Type} (key : A -> Z).

Lemma insert_sorted_perm (x : A) (l : list A) :
  Permutation (insert_sorted key x l) (x :: l).
Proof.
  induction l as [|y l IH]; cbn; [reflexivity|].
  destruct (key x <=? key y); [reflexivity|].
  rewrite IH. apply perm_swap.
Qed.

Lemma sorted_perm (l : list A) : Permutation (sorted key l) l.
Proof.
  induction l as [|x l IH]; cbn; [reflexivity|].
  rewrite insert_sorted_perm. now constructor.
Qed.

Lemma insert_sorted_ordered (x : A) (l : list A) :
  StronglySorted (key_le key) l -> StronglySorted (key_le key) (insert_sorted key x l).
Proof.
  induction 1 as [|y l Hl IH Hy]; cbn; [repeat constructor|].
  destruct (key x <=? key y) eqn:E.
  - apply Z.leb_le in E. constructor; [now constructor|].
    constructor; [exact E|].
    eapply Forall_impl; [|exact Hy]. unfold key_le in *; intros; lia.
  - apply Z.leb_gt in E. constructor; [exact IH|].
    eapply Permutation_Forall; [symmetry; apply insert_sorted_perm|].
    constructor; [unfold key_le in *; lia|exact Hy].
Qed.

Lemma sorted_ordered (l : list A) : StronglySorted (key_le key) (sorted key l).
Proof.
  induction l as [|x l IH]; cbn; [constructor|].
  now apply insert_sorted_ordered.
Qed.
End Sorting.


(** C9. The device declares exactly the listed resolution and framerate
    choices; its exposure-mode choices are all the keys of [EXPOSURE_MODES]
    in the order of their indices; and it has the temperature and humidity
    properties exactly when the sensor is enabled. *)
Theorem device_choice_sets (hw : hardware) (w : world hw) (EXPOSURE_MODES : dict) :
  exists t modes,
    returned (run (webthing_setup EXPOSURE_MODES) w) = Ok t
    /\ choices_of "resolution" t =
         Some ["320x240"; "640x480"; "800x600"; "1024x768"; "1296x972"; "1640x1232";
               "3280x2464"]%string
    /\ choices_of "framerate" t =
         Some ["0.0"; "0.1"; "0.5"; "1.0"; "2.0"; "3.0"; "4.0"; "5.0"; "6.0"; "7.0"; "8.0";
               "9.0"; "10.0"; "15.0"; "20.0"; "30.0"]%string
    /\ choices_of "exposureMode" t = Some modes
    /\ Permutation modes (dict_keys EXPOSURE_MODES)
    /\ StronglySorted (key_le (getitem EXPOSURE_MODES)) modes
    /\ has_property "temperature" t = py_truthy (si7021_enabled (self w))
    /\ has_property "humidity" t = py_truthy (si7021_enabled (self w)).
Proof.
  destruct w as [s d]. cbn.
  destruct (py_truthy (si7021_enabled s)); cbn;
    eexists; eexists; (split; [reflexivity|]);
    cbn; repeat (split; [reflexivity|]);
    (split; [apply sorted_perm|]); (split; [apply sorted_ordered|]); split; reflexivity.
Qed.

(** The exposure modes of the camera library come out in index order. *)
Example exposure_modes_sorted :
  sorted (getitem picamera_EXPOSURE_MODES) (dict_keys picamera_EXPOSURE_MODES)
  = ["off"; "auto"; "night"; "nightpreview"; "backlight"; "spotlight"; "sports"; "snow";
     "beach"; "verylong"; "fixedfps"; "antishake"; "fireworks"]%string.
Proof. reflexivity. Qed.

(** ** Framerate *)





Lemma run_camera_loop_turns_self (hw : hardware) (n : nat) (w : world hw) :
  self (final (run (camera_loop_turns n) w)) = self w.
Proof.
  revert w; induction n as [|n IH]; intros w; [reflexivity|].
  cbn [camera_loop_turns]. rewrite run_bind.
  destruct (camera_iteration_spec hw w) as (_ & F & _).
  cbv zeta in F.
  destruct (returned (run camera_loop_iteration w)); cbn [final].
  - rewrite IH, F. reflexivity.
  - rewrite F. reflexivity.
Qed.




(** ** The camera lock *)

Section Discipline.
Context {A B : Type}.

Lemma follows_bind (m mid post : mode) (p : prog A) (f : A -> prog B) :
  follows m p post -> (forall a, follows post (f a) post) -> follows m (bind p f) post.
Proof.
  intros Hp Hf. revert m Hp. induction p as [a|e|a k IH]; intros m Hp; cbn in *.
  - subst. apply Hf.
  - exact Hp.
  - destruct (next_mode a m); [|exact Hp]. intros r. apply IH, Hp.
Qed.

Lemma follows_try_except (m post : mode) (p : prog A) (h : exn -> prog A) :
  follows m p post -> (forall e, follows post (h e) post) ->
  follows m (try_except p h) post.
Proof.
  intros Hp Hh. revert m Hp. induction p as [a|e|a k IH]; intros m Hp; cbn in *.
  - exact Hp.
  - subst. apply Hh.
  - destruct (next_mode a m); [|exact Hp]. intros r. apply IH, Hp.
Qed.

Lemma follows_finally (m mid post : mode) (p : prog A) (q : prog unit) :
  follows m p mid -> follows mid q post -> follows m (finally p q) post.
Proof.
  intros Hp Hq. revert m Hp. induction p as [a|e|a k IH]; intros m Hp; cbn in *.
  - subst. clear -Hq. revert mid Hq. induction q as [u|e|b k IH]; intros mid Hq; cbn in *.
    + exact Hq.
    + exact Hq.
    + destruct (next_mode b mid); [|exact Hq]. intros r. apply IH, Hq.
  - subst. clear -Hq. revert mid Hq. induction q as [u|e'|b k IH]; intros mid Hq; cbn in *.
    + exact Hq.
    + exact Hq.
    + destruct (next_mode b mid); [|exact Hq]. intros r. apply IH, Hq.
  - destruct (next_mode a m); [|exact Hp]. intros r. apply IH, Hp.
Qed.

Lemma follows_with_camera_lock (body : prog A) :
  follows Locked body Locked -> follows Unlocked (with_camera_lock body) Unlocked.
Proof.
  intros H. cbn. intros _. apply (follows_finally _ Locked); [exact H|].
  cbn. intros _. reflexivity.
Qed.

Lemma follows_of_outcome (m : mode) (o : outcome A) : follows m (of_outcome o) m.
Proof. destruct o; reflexivity. Qed.
End Discipline.

Lemma follows_camera (op : cam_op) : follows Locked (camera op) Locked.
Proof. cbn. intros _ r. destruct r; reflexivity. Qed.

Lemma follows_bus (m : mode) (op : bus_op) : m <> InCall -> follows m (bus op) m.
Proof. intros H. destruct m; try congruence; cbn; intros r; destruct r; reflexivity. Qed.

Lemma follows_self_get (m : mode) (f : field) : m <> InCall -> follows m (self_get f) m.
Proof. intros H. destruct m; try congruence; cbn; intros r; reflexivity. Qed.

Lemma follows_self_set (m : mode) (f : field) (v : pyval) :
  m <> InCall -> follows m (self_set f v) m.
Proof. intros H. destruct m; try congruence; cbn; intros r; reflexivity. Qed.

Lemma follows_log (m : mode) (lvl : level) (msg : string) :
  m <> InCall -> follows m (log lvl msg) m.
Proof. intros H. destruct m; try congruence; cbn; intros r; reflexivity. Qed.

Lemma follows_add_callback (m : mode) (target : value_id) (v : pyval) :
  m <> InCall -> follows m (add_callback target v) m.
Proof. intros H. destruct m; try congruence; cbn; intros r; reflexivity. Qed.

Lemma follows_time_sleep (m : mode) (v : pyval) : m <> InCall -> follows m (time_sleep v) m.
Proof.
  intros H. destruct m; try congruence; destruct v; cbn; try reflexivity;
    repeat match goal with
           | |- context [if ?b then _ else _] => destruct b; cbn
           end; try reflexivity; intros r; reflexivity.
Qed.

Lemma unlocked_not_in_call : Unlocked <> InCall.
Proof. discriminate. Qed.

Lemma locked_not_in_call : Locked <> InCall.
Proof. discriminate. Qed.

Create HintDb locks.
#[local] Hint Resolve follows_camera follows_bus follows_self_get follows_self_set
  follows_log follows_add_callback follows_time_sleep follows_of_outcome
  unlocked_not_in_call locked_not_in_call : locks.

Ltac discipline :=
  repeat first
    [ solve [auto with locks]
    | match goal with
      | |- follows Locked (camera ?op) Locked => exact (follows_camera op)
      end
    | apply follows_with_camera_lock
    | apply follows_try_except
    | apply (follows_bind _ Unlocked Unlocked)
    | apply (follows_bind _ Locked Locked)
    | intros ?
    | match goal with
      | |- follows _ (if ?b then _ else _) _ => destruct b
      | |- follows _ (match ?x with _ => _ end) _ => destruct x
      | |- follows ?m (Ret _) ?m => reflexivity
      | |- follows ?m (Throw _) ?m => reflexivity
      end ].

Lemma setter_follows (p : writable) (v : pyval) : follows Unlocked (setter p v) Unlocked.
Proof.
  destruct p; unfold setter, set_resolution, set_framerate, set_exposure_mode, log_exception;
    discipline.
Qed.

Lemma serve_follows (writes : list (writable * pyval)) : follows Unlocked (serve writes) Unlocked.
Proof.
  induction writes as [|[p v] rest IH]; [reflexivity|].
  cbn [serve]. apply (follows_bind _ Unlocked Unlocked); [apply setter_follows|].
  intros _. exact IH.
Qed.

Lemma camera_loop_iteration_follows : follows Unlocked camera_loop_iteration Unlocked.
Proof.
  unfold camera_loop_iteration, update_image, update_resolution, update_framerate,
    update_exposure_mode, camera_loop_wait, get_still_image, get_resolution, get_framerate,
    get_exposure_mode, log_exception.
  discipline.
Qed.

Lemma camera_loop_follows (n : nat) : follows Unlocked (camera_loop n) Unlocked.
Proof.
  unfold camera_loop. apply (follows_bind _ Unlocked Unlocked); [discipline|]. intros _.
  induction n as [|n IH]; [reflexivity|].
  cbn [camera_loop_turns]. apply (follows_bind _ Unlocked Unlocked);
    [apply camera_loop_iteration_follows|]. intros _. exact IH.
Qed.

Lemma camera_setup_follows : follows Unlocked camera_setup Unlocked.
Proof. unfold camera_setup. discipline. Qed.

Lemma try_block_follows {L : Type} (m : mode) (stmts : list (L -> prog L)) (l : L) :
  Forall (fun stmt => forall l, follows m (stmt l) m) stmts ->
  follows m (try_block stmts l) m.
Proof.
  intros H. revert l. induction H as [|stmt rest Hs Hr IH]; intros l; [reflexivity|].
  cbn [try_block]. apply (follows_bind _ m m).
  - apply follows_try_except; [|intros e; reflexivity].
    apply (follows_bind _ m m); [apply Hs|]. intros l'. reflexivity.
  - intros [l'|e]; [apply IH|reflexivity].
Qed.

Lemma get_si7021_values_follows : follows Unlocked get_si7021_values Unlocked.
Proof.
  unfold get_si7021_values. apply (follows_bind _ Unlocked Unlocked).
  - apply try_block_follows. repeat constructor; intros l; discipline.
  - intros [l raised]. discipline.
Qed.

Lemma sensor_loop_follows (n : nat) : follows Unlocked (sensor_loop n) Unlocked.
Proof.
  unfold sensor_loop. apply (follows_bind _ Unlocked Unlocked); [discipline|]. intros _.
  induction n as [|n IH]; [reflexivity|].
  cbn [sensor_loop_turns]. apply (follows_bind _ Unlocked Unlocked); [|intros _; exact IH].
  unfold sensor_loop_iteration, log_exception.
  apply (follows_bind _ Unlocked Unlocked); [|discipline].
  apply follows_try_except; [|discipline].
  apply (follows_bind _ Unlocked Unlocked); [discipline|]. intros enabled.
  apply (follows_bind _ Unlocked Unlocked).
  - destruct (py_truthy enabled); [apply get_si7021_values_follows|reflexivity].
  - intros [t h]. discipline.
Qed.

(** *** The pool *)

Lemma nth_error_replace_nth {A : Type} (l : list A) (i j : nat) (x y : A) :
  nth_error (replace_nth i x l) j = Some y ->
  (j = i /\ y = x) \/ (j <> i /\ nth_error l j = Some y).
Proof.
  revert i j. induction l as [|z l IH]; intros i j H.
  - destruct i, j; discriminate H.
  - destruct i as [|i], j as [|j]; cbn in H.
    + injection H as <-. left. split; reflexivity.
    + right. split; [discriminate|exact H].
    + right. split; [discriminate|exact H].
    + apply IH in H. destruct H as [[-> ->]|[Hne H]]; [left|right]; split; auto.
Qed.

Lemma follows_step {A : Type} (m : mode) (a : action) (k : resp a -> prog A) :
  follows m (Act a k) Unlocked ->
  exists m', next_mode a m = Some m' /\ forall r, follows m' (k r) Unlocked.
Proof.
  cbn. destruct (next_mode a m) as [m'|]; [|intros []].
  intros H. exists m'. split; [reflexivity|exact H].
Qed.

Lemma next_mode_holds (a : action) (m m' : mode) :
  next_mode a m = Some m' ->
  match a with
  | LockAcquire => holds_lock m = false /\ holds_lock m' = true
  | LockRelease => holds_lock m = true /\ holds_lock m' = false
  | _ => holds_lock m' = holds_lock m
  end.
Proof.
  destruct a, m; cbn; intros H; try discriminate H; injection H as <-;
    try split; reflexivity.
Qed.

Lemma is_holder_self (i : nat) : is_holder (Some i) i = true.
Proof. apply Nat.eqb_refl. Qed.

Lemma is_holder_other (h : option nat) (i j : nat) :
  is_holder h i = true -> j <> i -> is_holder h j = false.
Proof.
  destruct h as [k|]; cbn; [|discriminate].
  intros H Hne. apply Nat.eqb_eq in H. subst k. apply Nat.eqb_neq. congruence.
Qed.

(** The thread that moved is in the mode its action leads to. *)
Lemma mover_ok (a : action) (tid : nat) (h : option nat) (m m' : mode) :
  next_mode a m = Some m' -> holds_lock m = is_holder h tid ->
  holds_lock m' = is_holder (holder_after a tid h) tid.
Proof.
  intros Hn Hh. apply next_mode_holds in Hn.
  destruct a; cbn [holder_after]; try congruence.
  - destruct Hn as [_ ->]. symmetry. apply is_holder_self.
  - destruct Hn as [_ ->]. reflexivity.
Qed.

(** The threads that did not move are in the mode they were in. *)
Lemma bystander_ok (a : action) (tid j : nat) (h : option nat) (m m' mj : mode) :
  next_mode a m = Some m' -> blocked a h = false ->
  holds_lock m = is_holder h tid -> holds_lock mj = is_holder h j -> j <> tid ->
  holds_lock mj = is_holder (holder_after a tid h) j.
Proof.
  intros Hn Hb Hh Hj Hne. apply next_mode_holds in Hn.
  destruct a; cbn [holder_after]; try exact Hj.
  - destruct h as [k|]; [discriminate Hb|].
    rewrite Hj. cbn. symmetry. apply Nat.eqb_neq. congruence.
  - destruct Hn as [Hm _]. rewrite Hj. cbn.
    apply (is_holder_other h tid j); congruence.
Qed.

Lemma pool_step_ok {hw : hardware} (tid : nat) (p : pool hw) :
  pool_ok p -> pool_ok (pool_step tid p).
Proof.
  intros Hp. unfold pool_step.
  destruct (nth_error (threads p) tid) as [[u|e|a k]|] eqn:Ht; try exact Hp.
  destruct (blocked a (holder p)) eqn:Hb; [exact Hp|].
  destruct (Hp tid _ Ht) as (m & Hm & Hh).
  apply follows_step in Hm. destruct Hm as (m' & Hn & Hk).
  destruct (step a (shared p)) as [r w'].
  intros j t Hj. cbn [threads holder] in *.
  apply nth_error_replace_nth in Hj.
  destruct Hj as [[-> ->]|[Hne Hj]].
  - exists m'. split; [apply Hk|]. eapply mover_ok; eassumption.
  - destruct (Hp j t Hj) as (mj & Hmj & Hhj).
    exists mj. split; [exact Hmj|]. eapply bystander_ok; eassumption.
Qed.

Lemma run_schedule_ok {hw : hardware} (schedule : list nat) (p : pool hw) :
  pool_ok p -> pool_ok (run_schedule schedule p).
Proof.
  revert p. induction schedule as [|tid rest IH]; intros p Hp; [exact Hp|].
  cbn. apply IH, pool_step_ok, Hp.
Qed.

Lemma start_ok {hw : hardware} (w : world hw) (ts : list (prog unit)) :
  Forall (fun t => follows Unlocked t Unlocked) ts -> pool_ok (start w ts).
Proof.
  intros H i t Hi. exists Unlocked. split.
  - rewrite Forall_forall in H. apply H. eapply nth_error_In; exact Hi.
  - reflexivity.
Qed.

Lemma server_threads_follow (n m : nat) (handlers : list (list (writable * pyval))) :
  Forall (fun t => follows Unlocked t Unlocked) (server_threads n m handlers).
Proof.
  unfold server_threads. constructor; [apply camera_setup_follows|].
  constructor; [apply camera_loop_follows|].
  constructor; [apply sensor_loop_follows|].
  apply Forall_map, Forall_forall. intros writes _. apply serve_follows.
Qed.

Lemma thread_at_camera_holds (h : option nat) (i : nat) (t : prog unit) :
  thread_ok h i t -> in_camera_call t || at_camera_call t = true -> h = Some i.
Proof.
  intros (m & Hm & Hh) Hc.
  assert (Hheld : is_holder h i = true).
  { rewrite <- Hh. destruct t as [u|e|a k]; try discriminate Hc.
    destruct a; try discriminate Hc; cbn in Hm; destruct m; try contradiction;
      reflexivity. }
  destruct h as [j|]; [|discriminate Hheld].
  apply Nat.eqb_eq in Hheld. congruence.
Qed.

Lemma holder_covers_ok (h : option nat) (ts : list (prog unit)) (i0 : nat) :
  (forall j t, nth_error ts j = Some t -> thread_ok h (i0 + j) t) ->
  holder_covers i0 h ts = true.
Proof.
  revert i0. induction ts as [|t ts IH]; intros i0 H; [reflexivity|].
  cbn [holder_covers]. apply andb_true_intro. split.
  - destruct (in_camera_call t || at_camera_call t) eqn:Hc; [|reflexivity].
    rewrite (thread_at_camera_holds h i0 t); [apply Nat.eqb_refl| |exact Hc].
    specialize (H 0%nat t eq_refl). now rewrite Nat.add_0_r in H.
  - apply IH. intros j t' Hj. specialize (H (S j) t' Hj).
    now rewrite Nat.add_succ_r in H.
Qed.

Lemma none_in_call_beyond_holder (h : option nat) (ts : list (prog unit)) (i1 : nat) :
  (forall j t, nth_error ts j = Some t -> thread_ok h (i1 + j) t) ->
  (forall i, h = Some i -> (i < i1)%nat) ->
  filter in_camera_call ts = [].
Proof.
  revert i1. induction ts as [|t ts IH]; intros i1 H Hlt; [reflexivity|].
  cbn [filter]. destruct (in_camera_call t) eqn:Hc.
  - exfalso. assert (Hh : h = Some i1).
    { apply (thread_at_camera_holds h i1 t); [|rewrite Hc; reflexivity].
      specialize (H 0%nat t eq_refl). now rewrite Nat.add_0_r in H. }
    apply Hlt in Hh. lia.
  - apply (IH (S i1)).
    + intros j t' Hj. specialize (H (S j) t' Hj). now rewrite Nat.add_succ_r in H.
    + intros i Hi. apply Hlt in Hi. lia.
Qed.

Lemma at_most_one_in_call (h : option nat) (ts : list (prog unit)) (i0 : nat) :
  (forall j t, nth_error ts j = Some t -> thread_ok h (i0 + j) t) ->
  (List.length (filter in_camera_call ts) <= 1)%nat.
Proof.
  revert i0. induction ts as [|t ts IH]; intros i0 H; [cbn; lia|].
  assert (Hrest : forall j t', nth_error ts j = Some t' -> thread_ok h (S i0 + j) t').
  { intros j t' Hj. specialize (H (S j) t' Hj). now rewrite Nat.add_succ_r in H. }
  cbn [filter]. destruct (in_camera_call t) eqn:Hc; [|exact (IH (S i0) Hrest)].
  assert (Hh : h = Some i0).
  { apply (thread_at_camera_holds h i0 t); [|rewrite Hc; reflexivity].
    specialize (H 0%nat t eq_refl). now rewrite Nat.add_0_r in H. }
  rewrite (none_in_call_beyond_holder h ts (S i0) Hrest); [cbn; lia|].
  intros i Hi. rewrite Hh in Hi. injection Hi as <-. lia.
Qed.

(** C7. However the main thread setting the camera up, the camera poller,
    the sensor poller and any number of remote-write handlers are
    interleaved, a thread that is starting or is
    inside a camera call holds the lock, and at most one thread is inside a
    camera call. *)
Theorem camera_calls_never_overlap
  (hw : hardware) (w : world hw) (n m : nat)
  (handlers : list (list (writable * pyval))) (schedule : list nat) :
  let p := run_schedule schedule (start w (server_threads n m handlers)) in
  holder_covers 0 (holder p) (threads p) = true
  /\ (List.length (filter in_camera_call (threads p)) <= 1)%nat.
Proof.
  intros p.
  assert (Hp : pool_ok p)
    by (apply run_schedule_ok, start_ok, server_threads_follow).
  split.
  - apply holder_covers_ok. intros j t Hj. apply Hp, Hj.
  - apply (at_most_one_in_call (holder p) (threads p) 0). intros j t Hj. apply Hp, Hj.
Qed.

(** Without the lock the same pool semantics lets two captures overlap. *)
Example unguarded_captures_overlap :
  let p := run_schedule [0; 1]%nat
             (start (fake_world [] []) [unguarded_capture; unguarded_capture]) in
  List.length (filter in_camera_call (threads p)) = 2%nat.
Proof. reflexivity. Qed.

(** [cleanup] calls the camera without taking the lock. *)
Example cleanup_does_not_take_the_lock : ~ follows Unlocked cleanup Unlocked.
Proof. cbn. intros H. exact H. Qed.

(** ** Reading and writing the camera, once more *)

(** X1. [get_still_image] returns the base64 of what the capture wrote and
    raises what the capture raises; the capture is a JPEG of quality 10 on
    the configured port; the lock is released either way and [self] is left
    as it was. *)
Theorem get_still_image_outcome (hw : hardware) (w : world hw) :
  let op := CamCapture "jpeg" 10 (use_video_port (self w)) in
  let r := run get_still_image w in
  returned r = outcome_map b64encode (fst (cam_exec hw op (device w)))
  /\ final r = mkWorld (self w) (snd (cam_exec hw op (device w)))
  /\ trace r =
       Log DEBUG "Capturing image <use_video_port:%s>"
       :: locked (call op
                  ++ match fst (cam_exec hw op (device w)) with
                     | Ok _ => [Log DEBUG "Capture took %f seconds"]
                     | Raise _ => []
                     end).
Proof.
  destruct w as [s d]. cbn.
  destruct (cam_exec hw _ d) as [[data|e] d']; cbn; repeat split; reflexivity.
Qed.

(** X2. The three getters have no handler of their own: each returns the
    camera's answer, formatted, or raises what the camera (or [float]) raises,
    and in both cases its trace is one camera call between acquire and
    release, with [self] left as it was. *)
Theorem getters_outcome (hw : hardware) (w : world hw) :
  let res := cam_exec hw CamGetResolution (device w) in
  let rate := cam_exec hw CamGetFramerate (device w) in
  let mode := cam_exec hw CamGetExposureMode (device w) in
  (returned (run get_resolution w) = resolution_of (fst res)
   /\ final (run get_resolution w) = mkWorld (self w) (snd res)
   /\ trace (run get_resolution w) = locked (call CamGetResolution))
  /\ (returned (run get_framerate w) = framerate_of (fst rate)
      /\ final (run get_framerate w) = mkWorld (self w) (snd rate)
      /\ trace (run get_framerate w) = locked (call CamGetFramerate))
  /\ (returned (run get_exposure_mode w) = fst mode
      /\ final (run get_exposure_mode w) = mkWorld (self w) (snd mode)
      /\ trace (run get_exposure_mode w) = locked (call CamGetExposureMode)).
Proof.
  destruct w as [s d]. cbn. repeat split.
  all: try (destruct (cam_exec hw CamGetResolution d) as [[[wd ht]|e] d']; reflexivity).
  all: try (destruct (cam_exec hw CamGetExposureMode d) as [[v|e] d']; reflexivity).
  all: destruct (cam_exec hw CamGetFramerate d) as [[v|e] d']; cbn; try reflexivity;
    destruct (py_float v); reflexivity.
Qed.

(** X3. A setter never raises; it leaves the device as the assignment left
    it and every cached field other than its own as it was; when the camera
    refuses, [self] is unchanged altogether and the failure is logged before
    the lock is released. *)
Theorem setter_frame (hw : hardware) (p : writable) (v : pyval) (w : world hw) :
  let op := CamSet (attr_of p) v in
  let r := run (setter p v) w in
  (exists b, returned r = Ok b)
  /\ device (final r) = snd (cam_exec hw op (device w))
  /\ fields_agree_except (cached p) (self w) (self (final r))
  /\ match fst (cam_exec hw op (device w)) with
     | Ok _ => trace r = locked (call op)
     | Raise _ =>
         self (final r) = self w
         /\ exists msg, trace r = locked (call op ++ [Log EXCEPTION msg])
     end.
Proof.
  destruct w as [s d].
  destruct p; cbn; destruct (cam_exec hw _ d) as [[u|e] d']; cbn;
    repeat split; try (eexists; reflexivity);
    intros g Hg; try reflexivity; destruct g; try reflexivity; congruence.
Qed.

(** X4. An exposure mode that the camera accepts and reports reads back as
    the very value written, and is the value cached. *)
Theorem exposure_mode_round_trip
  (hw : hardware) (w : world hw) (v : pyval) (d1 d2 : hw_state hw) :
  cam_exec hw (CamSet ExposureMode v) (device w) = (Ok tt, d1) ->
  cam_exec hw CamGetExposureMode d1 = (Ok v, d2) ->
  let r := run (set_exposure_mode v ;; get_exposure_mode) w in
  returned r = Ok v /\ exposure_mode (self (final r)) = v.
Proof.
  intros Hset Hget. cbn. rewrite Hset. cbn. rewrite Hget. split; reflexivity.
Qed.

Lemma exposure_mode_round_trip_night :
  let r := run (set_exposure_mode (PyStr "night") ;; get_exposure_mode) (fake_world [] []) in
  returned r = Ok (PyStr "night") /\ exposure_mode (self (final r)) = PyStr "night".
Proof.
  exact (exposure_mode_round_trip fake (fake_world [] []) (PyStr "night") _ _ eq_refl eq_refl).
Defined.

(** X5. [cleanup] closes the camera only when [stop_preview] returned: when
    [stop_preview] raises, the exception leaves [cleanup] and [close] is not
    called. *)
Theorem cleanup_closes_only_after_stop (hw : hardware) (w : world hw) :
  let stop := cam_exec hw CamStopPreview (device w) in
  let r := run cleanup w in
  match fst stop with
  | Raise e =>
      returned r = Raise e /\ trace r = call CamStopPreview
      /\ device (final r) = snd stop
  | Ok _ =>
      returned r = fst (cam_exec hw CamClose (snd stop))
      /\ trace r = call CamStopPreview ++ call CamClose
      /\ device (final r) = snd (cam_exec hw CamClose (snd stop))
  end.
Proof.
  destruct w as [s d]. cbn.
  destruct (cam_exec hw CamStopPreview d) as [[u|e] d1]; cbn; [|repeat split; reflexivity].
  destruct (cam_exec hw CamClose d1) as [[u'|e] d2]; cbn; [destruct u'|];
    repeat split; reflexivity.
Qed.

(** ** The pollers over many turns *)





Lemma run_camera_loop (hw : hardware) (n : nat) (w : world hw) :
  run (camera_loop n) w
  = mkResult (returned (run (camera_loop_turns n) w)) (final (run (camera_loop_turns n) w))
      (Log INFO "Camera loop running" :: trace (run (camera_loop_turns n) w)).
Proof. reflexivity. Qed.



(** X7. When the interval computation or the sleep raises, the exception
    ends the camera loop in its first turn: however many turns were to
    come, the loop raises that exception and has done what one turn does. *)
Theorem camera_loop_stops_at_failed_wait
  (hw : hardware) (n : nat) (w : world hw) (e : exn) :
  returned (run camera_loop_wait w) = Raise e ->
  returned (run (camera_loop (S n)) w) = Raise e
  /\ trace (run (camera_loop (S n)) w) = trace (run (camera_loop 1) w).
Proof.
  intros Hwait.
  assert (Hi : returned (run camera_loop_iteration w) = Raise e).
  { destruct (camera_iteration_spec hw w) as (R & _). cbv zeta in R. rewrite R, <- Hwait.
    destruct w as [s d]. apply camera_loop_wait_ignores_device. }
  rewrite !run_camera_loop. cbn [camera_loop_turns returned trace].
  rewrite !run_bind, Hi. split; reflexivity.
Qed.

Lemma camera_loop_stops_at_zero_framerate :
  returned (run (camera_loop 5) zero_framerate_world) = Raise ZeroDivisionError
  /\ trace (run (camera_loop 5) zero_framerate_world)
     = trace (run (camera_loop 1) zero_framerate_world).
Proof.
  exact (camera_loop_stops_at_failed_wait fake 4 zero_framerate_world ZeroDivisionError
           eq_refl).
Defined.



(** ** The sensor, once more *)

Lemma get_si7021_values_returned (hw : hardware) (w : world hw) :
  returned (run get_si7021_values w) =
  match humidity_phase hw (device w) with
  | (Ok (h0, h1), d) =>
      match temperature_phase hw d with
      | (Ok (t0, t1), _) => Ok (Some (spec_temperature t0 t1), Some (spec_humidity h0 h1))
      | (Raise _, _) => Ok (None, Some (spec_humidity h0 h1))
      end
  | (Raise _, _) => Ok (None, None)
  end.
Proof.
  destruct w as [s d0]. unfold humidity_phase, temperature_phase, and_then.
  case_hardware; reflexivity.
Qed.

(** X9. [get_si7021_values] never raises.  When it returns a temperature
    the bus saw the whole transaction, in order, with the three settle
    times of 0.3 s, and nothing was logged; otherwise the bus saw a prefix
    of the transaction ending at the call that failed, and the failure was
    logged once. *)
Theorem get_si7021_values_protocol (hw : hardware) (w : world hw) :
  let r := run get_si7021_values w in
  self (final r) = self w
  /\ match returned r with
     | Ok (Some _, _) =>
         bus_ops (trace r) = si7021_protocol
         /\ slept (trace r) = [PyFloat 0.3; PyFloat 0.3; PyFloat 0.3]
         /\ exceptions_logged (trace r) = []
     | Ok (None, _) =>
         (exists k, (0 < k <= 7)%nat /\ bus_ops (trace r) = firstn k si7021_protocol)
         /\ exceptions_logged (trace r) = ["Failed to get si7021 sensor data"%string]
     | Raise _ => False
     end.
Proof.
  destruct w as [s d0]. case_hardware; (split; [reflexivity|]);
    try (repeat split; reflexivity);
    (split; [|reflexivity]);
    first [ exists 1%nat; split; [lia|reflexivity]
          | exists 2%nat; split; [lia|reflexivity]
          | exists 3%nat; split; [lia|reflexivity]
          | exists 4%nat; split; [lia|reflexivity]
          | exists 5%nat; split; [lia|reflexivity]
          | exists 6%nat; split; [lia|reflexivity]
          | exists 7%nat; split; [lia|reflexivity] ].
Qed.

Lemma sensor_iteration_spec (hw : hardware) (w : world hw) :
  let r := run sensor_loop_iteration w in
  returned r = returned (run (time_sleep (sensors_update_interval (self w))) w)
  /\ self (final r) = self w
  /\ leaves_camera_alone (trace r) = true
  /\ (py_truthy (si7021_enabled (self w)) = false ->
      bus_ops (trace r) = [] /\ pushes (trace r) = []).
Proof.
  destruct w as [s d0].
  assert (Hsleep : forall d : hw_state hw,
             let q := run (time_sleep (sensors_update_interval s)) (mkWorld s d) in
             returned q = returned (run (time_sleep (sensors_update_interval s)) (mkWorld s d0))
             /\ final q = mkWorld s d
             /\ leaves_camera_alone (trace q) = true
             /\ bus_ops (trace q) = [] /\ pushes (trace q) = []).
  { intros d. destruct (sensors_update_interval s); cbn; try (repeat split; reflexivity);
      repeat match goal with
             | |- context [if ?b then _ else _] => destruct b; cbn
             end; repeat split; reflexivity. }
  unfold sensor_loop_iteration. rewrite run_bind.
  cbn -[time_sleep leaves_camera_alone].
  destruct (py_truthy (si7021_enabled s)) eqn:En.
  - case_hardware;
      match goal with
      | |- context [run (time_sleep _) (mkWorld _ ?d)] =>
          destruct (Hsleep d) as (H1 & H2 & H3 & _)
      end;
      cbv zeta in H1, H2, H3; cbn [self device] in *;
      rewrite ?H1, ?H2; unfold leaves_camera_alone in *;
      rewrite ?forallb_app; cbn [forallb touches_camera negb andb];
      rewrite ?H3; (repeat split; try reflexivity); discriminate.
  - cbn -[time_sleep leaves_camera_alone].
    destruct (Hsleep d0) as (H1 & H2 & H3 & H4 & H5). cbv zeta in H1, H2, H3, H4, H5.
    rewrite H2. repeat split; try assumption; try reflexivity.
Qed.

(** X10. A sensor iteration returns or raises as the sleep of the
    configured interval alone decides, whatever the bus does, and never
    changes [self]; with the sensor disabled it makes no call on the bus
    and pushes nothing. *)
Theorem sensor_iteration_outcome (hw : hardware) (w : world hw) :
  let r := run sensor_loop_iteration w in
  returned r = returned (run (time_sleep (sensors_update_interval (self w))) w)
  /\ self (final r) = self w
  /\ (py_truthy (si7021_enabled (self w)) = false ->
      bus_ops (trace r) = [] /\ pushes (trace r) = []).
Proof.
  destruct (sensor_iteration_spec hw w) as (R & F & _ & D). repeat split; auto;
    apply D; assumption.
Qed.

(** X11. The sensor loop never takes the camera lock and never calls the
    camera, and never changes [self], over any number of turns and
    whatever the bus does. *)
Theorem sensor_loop_leaves_camera_alone (hw : hardware) (n : nat) (w : world hw) :
  let r := run (sensor_loop n) w in
  leaves_camera_alone (trace r) = true /\ self (final r) = self w.
Proof.
  unfold sensor_loop. cbn -[leaves_camera_alone].
  change (leaves_camera_alone
            (Log INFO "Sensor loop running" :: trace (run (sensor_loop_turns n) w)) = true
          /\ self (final (run (sensor_loop_turns n) w)) = self w).
  assert (H : leaves_camera_alone (trace (run (sensor_loop_turns n) w)) = true
              /\ self (final (run (sensor_loop_turns n) w)) = self w).
  { revert w. induction n as [|n IH]; intros w; [split; reflexivity|].
    cbn [sensor_loop_turns]. rewrite run_bind.
    destruct (sensor_iteration_spec hw w) as (_ & F & L & _). cbv zeta in F, L.
    destruct (returned (run sensor_loop_iteration w)); cbn [trace final].
    - destruct (IH (final (run sensor_loop_iteration w))) as (IL & IS).
      unfold leaves_camera_alone in *. rewrite forallb_app, L, IL, IS, F.
      split; reflexivity.
    - split; assumption. }
  destruct H as (L & S). split; [|exact S].
  unfold leaves_camera_alone in *. cbn. exact L.
Qed.

Lemma in_count_from (z start : Z) (n : nat) :
  start <= z < start + Z.of_nat n -> In z (count_from start n).
Proof.
  revert start. induction n as [|n IH]; intros start H; [lia|].
  cbn [count_from]. destruct (Z.eq_dec z start) as [->|Hne]; [left; reflexivity|].
  right. apply IH. lia.
Qed.

Lemma raw_reading_of_bytes (data0 data1 : Byte.byte) :
  In (byte_value data0 * 256 + byte_value data1) raw_readings.
Proof.
  unfold raw_readings, byte_value.
  assert (H0 := Byte.to_N_bounded data0). assert (H1 := Byte.to_N_bounded data1).
  apply in_count_from. lia.
Qed.

Lemma conversion_ranges_raw :
  forallb (fun raw =>
             between (-6) 118.99809265136719 (humidity_of_raw raw)
             && between (-52.33) 263.9611737060547 (temperature_of_raw raw))
    raw_readings = true.
Proof. vm_compute. reflexivity. Qed.

(** X12. Whatever bytes the sensor returns, the humidity that
    [get_si7021_values] computes lies between -6 and 118.998... and the
    temperature between -52.33 and 263.961... degrees Fahrenheit: the
    humidity is not clamped to 0..100. *)
Theorem si7021_value_ranges
  (hw : hardware) (w : world hw) (t h : option float) :
  returned (run get_si7021_values w) = Ok (t, h) ->
  match h with
  | Some x => between (-6) 118.99809265136719 x = true
  | None => True
  end
  /\ match t with
     | Some x => between (-52.33) 263.9611737060547 x = true
     | None => True
     end.
Proof.
  intros Hr. rewrite get_si7021_values_returned in Hr.
  assert (Hraw : forall d0 d1,
             between (-6) 118.99809265136719 (spec_humidity d0 d1) = true
             /\ between (-52.33) 263.9611737060547 (spec_temperature d0 d1) = true).
  { intros d0 d1. apply andb_prop.
    exact (proj1 (forallb_forall _ _) conversion_ranges_raw _ (raw_reading_of_bytes d0 d1)). }
  destruct (humidity_phase hw (device w)) as [[[h0 h1]|e] d].
  - destruct (temperature_phase hw d) as [[[t0 t1]|e] d'];
      injection Hr as <- <-; split; try exact I;
      first [apply (Hraw h0 h1) | apply (Hraw t0 t1)].
  - injection Hr as <- <-. split; exact I.
Qed.

Lemma si7021_value_ranges_at_extremes :
  between (-6) 118.99809265136719 (-6) = true
  /\ between (-52.33) 263.9611737060547 263.9611737060547 = true.
Proof.
  exact (si7021_value_ranges fake extreme_readings_world _ _ eq_refl).
Defined.

(** ** The device and the startup, once more *)

Lemma webthing_setup_spec (hw : hardware) (w : world hw) (EXPOSURE_MODES : dict) :
  let r := run (webthing_setup EXPOSURE_MODES) w in
  final r = w
  /\ leaves_hardware_alone (trace r) = true
  /\ threads_started (trace r) = []
  /\ exists t,
       returned r = Ok t
       /\ thing_name t = device_name (self w)
       /\ property_names t =
            camera_property_names
            ++ (if py_truthy (si7021_enabled (self w)) then sensor_property_names else [])
       /\ property_values t =
            [resolution_value; framerate_value; base64_still_image_value; exposure_mode_value]
            ++ (if py_truthy (si7021_enabled (self w))
                then [temperature_value; humidity_value] else [])
       /\ has_property "temperature" t = py_truthy (si7021_enabled (self w)).
Proof.
  destruct w as [s d]. cbn.
  destruct (py_truthy (si7021_enabled s)); cbn;
    (repeat split; try reflexivity); eexists; repeat split; reflexivity.
Qed.


(** X14. Each resolution the device offers names a width and a height, and
    is published back as it is: written to a camera that accepts it and
    reports that width and height, it is what [get_resolution] returns. *)
Theorem resolution_choices_round_trip
  (hw : hardware) (w : world hw) (choice : string) (d1 d2 : hw_state hw) :
  In choice resolution_choices ->
  cam_exec hw (CamSet Resolution (PyStr choice)) (device w) = (Ok tt, d1) ->
  (forall size, parse_resolution choice = Some size ->
                cam_exec hw CamGetResolution d1 = (Ok size, d2)) ->
  (exists size, parse_resolution choice = Some size)
  /\ returned (run (set_resolution (PyStr choice) ;; get_resolution) w) = Ok (PyStr choice).
Proof.
  intros Hin Hset Hget.
  assert (Hp : exists size, parse_resolution choice = Some size
                            /\ format_resolution (fst size) (snd size) = choice).
  { unfold resolution_choices in Hin. cbn [In] in Hin.
    repeat (destruct Hin as [<-|Hin]; [eexists; split; reflexivity|]). destruct Hin. }
  destruct Hp as ([wd ht] & Hparse & Hfmt). split; [eexists; exact Hparse|].
  specialize (Hget _ Hparse). destruct w as [s d]. cbn in *.
  rewrite Hset. cbn. rewrite Hget. cbn. rewrite Hfmt. reflexivity.
Qed.

Lemma resolution_choice_1296x972 :
  (exists size, parse_resolution "1296x972" = Some size)
  /\ returned (run (set_resolution (PyStr "1296x972") ;; get_resolution) (fake_world [] []))
     = Ok (PyStr "1296x972").
Proof.
  apply (resolution_choices_round_trip fake (fake_world [] []) "1296x972"
           (mkFake (1296, 972) (PyFloat 1) (PyStr "auto") [] [])
           (mkFake (1296, 972) (PyFloat 1) (PyStr "auto") [] [])).
  - cbn. tauto.
  - reflexivity.
  - intros size H. cbn in H. injection H as <-. reflexivity.
Defined.

(** X15. Each framerate the device offers is published back as it is: when
    the camera reports a framerate whose float is that of the choice,
    [get_framerate] returns the text of the choice. *)
Theorem framerate_choices_published_verbatim
  (hw : hardware) (w : world hw) (choice : string) (v : pyval) (d : hw_state hw) :
  In choice framerate_choices ->
  py_float v = py_float (PyStr choice) ->
  cam_exec hw CamGetFramerate (device w) = (Ok v, d) ->
  returned (run get_framerate w) = Ok (PyStr choice).
Proof.
  intros Hin Hv Hget. destruct w as [s d0]. cbn in *. rewrite Hget. cbn. rewrite Hv.
  unfold framerate_choices in Hin. cbn [In] in Hin.
  repeat (destruct Hin as [<-|Hin]; [vm_compute; reflexivity|]). destruct Hin.
Qed.

Lemma framerate_choice_one_tenth :
  returned (run get_framerate
              (@mkWorld fake fake_self
                 (mkFake (1024, 768) (PyFraction 1 10) (PyStr "auto") [] [])))
  = Ok (PyStr "0.1").
Proof.
  apply (framerate_choices_published_verbatim fake _ "0.1" (PyFraction 1 10)
           (mkFake (1024, 768) (PyFraction 1 10) (PyStr "auto") [] [])).
  - cbn. tauto.
  - reflexivity.
  - reflexivity.
Defined.

Lemma camera_setup_threads (hw : hardware) (w : world hw) :
  let r := run camera_setup w in
  self (final r) = self w
  /\ threads_started (trace r)
     = match returned r with
       | Ok _ => [camera_loop_target]
       | Raise _ => []
       end.
Proof.
  destruct w as [s d]. cbn.
  destruct (cam_open hw d) as [[u|e] d0]; case_hardware; split; reflexivity.
Qed.

Lemma threads_started_app (s t : list action) :
  threads_started (s ++ t) = threads_started s ++ threads_started t.
Proof.
  induction s as [|a s IH]; [reflexivity|].
  destruct a; cbn; rewrite ?IH; reflexivity.
Qed.

Lemma run_sensor_setup (hw : hardware) (w : world hw) :
  run sensor_setup w
  = mkResult (Ok tt) w
      (if py_truthy (si7021_enabled (self w)) then [ThreadStart sensor_loop_target] else []).
Proof.
  destruct w as [s d]. cbn. destruct (py_truthy (si7021_enabled s)); reflexivity.
Qed.

(** X16. [__init__] starts the sensor thread first, when the sensor is
    enabled, then sets the camera up.  When the setup raises, the exception
    leaves [__init__]: no device is built and no camera thread is started,
    though the sensor thread already runs.  When it completes, the camera
    thread is started and the device built has the temperature property
    exactly when the sensor thread was started. *)
Theorem init_outcome (hw : hardware) (w : world hw) (EXPOSURE_MODES : dict) :
  let r := run (init EXPOSURE_MODES) w in
  match returned (run camera_setup w) with
  | Raise e =>
      returned r = Raise e
      /\ threads_started (trace r) = sensor_thread (self w)
  | Ok _ =>
      threads_started (trace r) = sensor_thread (self w) ++ [camera_loop_target]
      /\ exists t,
           returned r = Ok t
           /\ (has_property "temperature" t = true
               <-> In sensor_loop_target (threads_started (trace r)))
  end.
Proof.
  intros r. subst r. unfold init.
  rewrite run_bind. cbn [self_get perform run step returned final trace visible].
  rewrite run_bind. cbn [log perform run step returned final trace visible].
  rewrite run_bind, run_sensor_setup. cbn [returned final trace].
  rewrite run_bind.
  destruct (camera_setup_threads hw w) as (S & T). cbv zeta in S, T.
  destruct (returned (run camera_setup w)) as [u|e]; cbn [returned final trace].
  - destruct (webthing_setup_spec hw (final (run camera_setup w)) EXPOSURE_MODES)
      as (_ & _ & TS & t & R & _ & _ & _ & V).
    cbv zeta in TS, R. rewrite R. cbn [returned trace app threads_started].
    rewrite !threads_started_app, T, TS, app_nil_r.
    assert (E : threads_started
                  (if py_truthy (si7021_enabled (self w))
                   then [ThreadStart sensor_loop_target] else [])
                = sensor_thread (self w))
      by (unfold sensor_thread; destruct (py_truthy (si7021_enabled (self w))); reflexivity).
    rewrite E. split; [reflexivity|].
    exists t. split; [reflexivity|]. rewrite V, S. unfold sensor_thread.
    destruct (py_truthy (si7021_enabled (self w))); cbn; split; intros H;
      try reflexivity; try discriminate; auto.
    destruct H as [H|[]]; discriminate.
  - cbn [threads_started app]. rewrite !threads_started_app, T, app_nil_r.
    split; [reflexivity|]. unfold sensor_thread.
    destruct (py_truthy (si7021_enabled (self w))); reflexivity.
Qed.

(** ** The lock, once more *)

Lemma calm_bind_ret {A : Type} (m post : mode) (q : prog unit) (a : A) :
  calm m q post -> calm m (q ;; Ret a) post.
Proof.
  revert m. induction q as [u|e|b k IH]; intros m Hq; cbn in *; try exact Hq.
  destruct (next_mode_calm b m); [|exact Hq]. intros r. apply IH, Hq.
Qed.

Lemma calm_bind_throw {A : Type} (m post : mode) (q : prog unit) (e : exn) :
  calm m q post -> calm m (q ;; @Throw A e) post.
Proof.
  revert m. induction q as [u|e'|b k IH]; intros m Hq; cbn in *; try exact Hq.
  destruct (next_mode_calm b m); [|exact Hq]. intros r. apply IH, Hq.
Qed.

Section Calm.
Context {A B : Type}.

Lemma calm_bind (m post : mode) (p : prog A) (f : A -> prog B) :
  calm m p post -> (forall a, calm post (f a) post) -> calm m (bind p f) post.
Proof.
  intros Hp Hf. revert m Hp. induction p as [a|e|a k IH]; intros m Hp; cbn in *.
  - subst. apply Hf.
  - exact Hp.
  - destruct (next_mode_calm a m); [|exact Hp]. intros r. apply IH, Hp.
Qed.

Lemma calm_try_except (m post : mode) (p : prog A) (h : exn -> prog A) :
  calm m p post -> (forall e, calm post (h e) post) -> calm m (try_except p h) post.
Proof.
  intros Hp Hh. revert m Hp. induction p as [a|e|a k IH]; intros m Hp; cbn in *.
  - exact Hp.
  - subst. apply Hh.
  - destruct (next_mode_calm a m); [|exact Hp]. intros r. apply IH, Hp.
Qed.

Lemma calm_finally (m mid post : mode) (p : prog A) (q : prog unit) :
  calm m p mid -> calm mid q post -> calm m (finally p q) post.
Proof.
  intros Hp Hq. revert m Hp. induction p as [a|e|a k IH]; intros m Hp; cbn in *.
  - subst. apply calm_bind_ret; exact Hq.
  - subst. apply calm_bind_throw; exact Hq.
  - destruct (next_mode_calm a m); [|exact Hp]. intros r. apply IH, Hp.
Qed.

Lemma calm_with_camera_lock (body : prog A) :
  calm Locked body Locked -> calm Unlocked (with_camera_lock body) Unlocked.
Proof.
  intros H. cbn. intros _. apply (calm_finally _ Locked); [exact H|].
  cbn. intros _. reflexivity.
Qed.

Lemma calm_of_outcome (m : mode) (o : outcome A) : calm m (of_outcome o) m.
Proof. destruct o; reflexivity. Qed.
End Calm.

Lemma calm_camera (op : cam_op) : calm Locked (camera op) Locked.
Proof. cbn. intros _ r. destruct r; reflexivity. Qed.

Lemma calm_quick (m : mode) (a : action) :
  m <> InCall -> quick a = true -> next_mode a m = Some m -> calm m (perform a) m.
Proof.
  intros Hm Hq Hn. cbn. unfold next_mode_calm. rewrite Hq, Hn.
  destruct m; intros r; reflexivity.
Qed.

Lemma calm_unlocked (a : action) :
  next_mode a Unlocked = Some Unlocked -> calm Unlocked (perform a) Unlocked.
Proof. intros Hn. cbn. rewrite Hn. intros r. reflexivity. Qed.

Lemma calm_time_sleep (v : pyval) : calm Unlocked (time_sleep v) Unlocked.
Proof.
  destruct v; cbn; try reflexivity;
    repeat match goal with
           | |- context [if ?b then _ else _] => destruct b; cbn
           end; try reflexivity; intros r; reflexivity.
Qed.

Lemma calm_bus (op : bus_op) : calm Unlocked (bus op) Unlocked.
Proof. cbn. intros r. destruct r; reflexivity. Qed.

Ltac calmly :=
  repeat first
    [ match goal with
      | |- calm Locked (camera ?op) Locked => exact (calm_camera op)
      | |- calm Unlocked (time_sleep ?v) Unlocked => exact (calm_time_sleep v)
      | |- calm Unlocked (bus ?op) Unlocked => exact (calm_bus op)
      | |- calm ?m (of_outcome ?o) ?m => exact (calm_of_outcome m o)
      | |- calm _ (self_get _) _ => apply calm_quick; [discriminate|reflexivity..]
      | |- calm _ (self_set _ _) _ => apply calm_quick; [discriminate|reflexivity..]
      | |- calm _ (log _ _) _ => apply calm_quick; [discriminate|reflexivity..]
      | |- calm Unlocked (add_callback _ _) Unlocked => apply calm_unlocked; reflexivity
      | |- calm Unlocked (perform _) Unlocked => apply calm_unlocked; reflexivity
      | |- calm ?m (Ret _) ?m => reflexivity
      | |- calm ?m (Throw _) ?m => reflexivity
      end
    | apply calm_with_camera_lock
    | apply calm_try_except
    | apply (calm_bind Unlocked Unlocked)
    | apply (calm_bind Locked Locked)
    | intros ?
    | match goal with
      | |- calm _ (if ?b then _ else _) _ => destruct b
      | |- calm _ (match ?x with _ => _ end) _ => destruct x
      end ].

Lemma setter_calm (p : writable) (v : pyval) : calm Unlocked (setter p v) Unlocked.
Proof.
  destruct p; unfold setter, set_resolution, set_framerate, set_exposure_mode;
    calmly.
Qed.

Lemma serve_calm (writes : list (writable * pyval)) : calm Unlocked (serve writes) Unlocked.
Proof.
  induction writes as [|[p v] rest IH]; [reflexivity|].
  cbn [serve]. apply (calm_bind Unlocked Unlocked); [apply setter_calm|].
  intros _. exact IH.
Qed.

Lemma camera_loop_iteration_calm : calm Unlocked camera_loop_iteration Unlocked.
Proof.
  unfold camera_loop_iteration, update_image, update_resolution, update_framerate,
    update_exposure_mode, camera_loop_wait, get_still_image, get_resolution, get_framerate,
    get_exposure_mode, log_exception.
  calmly.
Qed.

Lemma camera_loop_calm (n : nat) : calm Unlocked (camera_loop n) Unlocked.
Proof.
  unfold camera_loop. apply (calm_bind Unlocked Unlocked); [calmly|]. intros _.
  induction n as [|n IH]; [reflexivity|].
  cbn [camera_loop_turns]. apply (calm_bind Unlocked Unlocked);
    [apply camera_loop_iteration_calm|]. intros _. exact IH.
Qed.

Lemma camera_setup_calm : calm Unlocked camera_setup Unlocked.
Proof. unfold camera_setup. calmly. Qed.

Lemma try_block_calm {L : Type} (stmts : list (L -> prog L)) (l : L) :
  Forall (fun stmt => forall l, calm Unlocked (stmt l) Unlocked) stmts ->
  calm Unlocked (try_block stmts l) Unlocked.
Proof.
  intros H. revert l. induction H as [|stmt rest Hs Hr IH]; intros l; [reflexivity|].
  cbn [try_block]. apply (calm_bind Unlocked Unlocked).
  - apply calm_try_except; [|intros e; reflexivity].
    apply (calm_bind Unlocked Unlocked); [apply Hs|]. intros l'. reflexivity.
  - intros [l'|e]; [apply IH|reflexivity].
Qed.

Lemma sensor_loop_calm (n : nat) : calm Unlocked (sensor_loop n) Unlocked.
Proof.
  unfold sensor_loop. apply (calm_bind Unlocked Unlocked); [calmly|]. intros _.
  induction n as [|n IH]; [reflexivity|].
  cbn [sensor_loop_turns]. apply (calm_bind Unlocked Unlocked); [|intros _; exact IH].
  unfold sensor_loop_iteration, log_exception.
  apply (calm_bind Unlocked Unlocked); [|calmly].
  apply calm_try_except; [|calmly].
  apply (calm_bind Unlocked Unlocked); [calmly|]. intros enabled.
  apply (calm_bind Unlocked Unlocked).
  - destruct (py_truthy enabled); [|reflexivity].
    unfold get_si7021_values. apply (calm_bind Unlocked Unlocked).
    + apply try_block_calm. repeat constructor; intros l; calmly.
    + intros [l raised]. calmly.
  - intros [t h]. calmly.
Qed.

Lemma server_threads_calm (n m : nat) (handlers : list (list (writable * pyval))) :
  Forall (fun t => calm Unlocked t Unlocked) (server_threads n m handlers).
Proof.
  unfold server_threads. constructor; [apply camera_setup_calm|].
  constructor; [apply camera_loop_calm|].
  constructor; [apply sensor_loop_calm|].
  apply Forall_map, Forall_forall. intros writes _. apply serve_calm.
Qed.

Lemma next_mode_calm_next (a : action) (m m' : mode) :
  next_mode_calm a m = Some m' ->
  next_mode a m = Some m' /\ (holds_lock m = true -> quick a = true).
Proof.
  unfold next_mode_calm. destruct m; cbn [holds_lock].
  - intros H. split; [exact H|discriminate].
  - destruct (quick a); [|discriminate]. intros H. split; [exact H|reflexivity].
  - destruct (quick a); [|discriminate]. intros H. split; [exact H|reflexivity].
Qed.

Lemma calm_step {A : Type} (m : mode) (a : action) (k : resp a -> prog A) :
  calm m (Act a k) Unlocked ->
  exists m', next_mode_calm a m = Some m' /\ forall r, calm m' (k r) Unlocked.
Proof.
  cbn. destruct (next_mode_calm a m) as [m'|]; [|intros []].
  intros H. exists m'. split; [reflexivity|exact H].
Qed.

Lemma length_replace_nth {A : Type} (n : nat) (x : A) (l : list A) :
  List.length (replace_nth n x l) = List.length l.
Proof.
  revert n. induction l as [|y l IH]; intros n; [destruct n; reflexivity|].
  destruct n; cbn; [reflexivity|]. now rewrite IH.
Qed.

Lemma pool_step_calm {hw : hardware} (tid : nat) (p : pool hw) :
  pool_calm p -> pool_calm (pool_step tid p).
Proof.
  intros [Hv Hp]. unfold pool_step.
  destruct (nth_error (threads p) tid) as [[u|e|a k]|] eqn:Ht; try (split; assumption).
  destruct (blocked a (holder p)) eqn:Hb; [split; assumption|].
  destruct (Hp tid _ Ht) as (m & Hm & Hh).
  apply calm_step in Hm. destruct Hm as (m' & Hn & Hk).
  apply next_mode_calm_next in Hn. destruct Hn as [Hn _].
  destruct (step a (shared p)) as [r w']. split; cbn [threads holder].
  - intros i Hi. rewrite length_replace_nth.
    destruct a; cbn [holder_after] in Hi; try (apply Hv; exact Hi); try discriminate Hi.
    injection Hi as <-. apply nth_error_Some. congruence.
  - intros j t Hj. apply nth_error_replace_nth in Hj.
    destruct Hj as [[-> ->]|[Hne Hj]].
    + exists m'. split; [apply Hk|]. eapply mover_ok; eassumption.
    + destruct (Hp j t Hj) as (mj & Hmj & Hhj).
      exists mj. split; [exact Hmj|]. eapply bystander_ok; eassumption.
Qed.

Lemma run_schedule_calm {hw : hardware} (schedule : list nat) (p : pool hw) :
  pool_calm p -> pool_calm (run_schedule schedule p).
Proof.
  revert p. induction schedule as [|tid rest IH]; intros p Hp; [exact Hp|].
  cbn. apply IH, pool_step_calm, Hp.
Qed.

Lemma start_calm {hw : hardware} (w : world hw) (ts : list (prog unit)) :
  Forall (fun t => calm Unlocked t Unlocked) ts -> pool_calm (start w ts).
Proof.
  intros H. split; [intros i Hi; discriminate Hi|].
  intros i t Hi. exists Unlocked. split; [|reflexivity].
  rewrite Forall_forall in H. apply H. eapply nth_error_In; exact Hi.
Qed.

Lemma holder_next_action {hw : hardware} (p : pool hw) (i : nat) :
  pool_calm p -> holder p = Some i ->
  exists a k, nth_error (threads p) i = Some (Act a k) /\ quick a = true.
Proof.
  intros [Hv Hp] Hi.
  destruct (nth_error (threads p) i) as [t|] eqn:Ht;
    [|apply Hv, nth_error_Some in Hi; congruence].
  destruct (Hp i t Ht) as (m & Hm & Hh).
  rewrite Hi, is_holder_self in Hh.
  destruct t as [u|e|a k]; cbn in Hm; try (subst m; discriminate Hh).
  destruct (next_mode_calm a m) as [m'|] eqn:Hn; [|contradiction].
  apply next_mode_calm_next in Hn. destruct Hn as [_ Hq].
  exists a, k. split; [reflexivity|]. apply Hq, Hh.
Qed.

Lemma unfinished_thread (ts : list (prog unit)) :
  forallb finished ts = false ->
  exists j a k, nth_error ts j = Some (Act a k).
Proof.
  induction ts as [|t ts IH]; [discriminate|]. cbn [forallb].
  destruct t as [u|e|a k]; cbn [finished andb].
  - intros H. destruct (IH H) as (j & a & k & Hj). exists (S j), a, k. exact Hj.
  - intros H. destruct (IH H) as (j & a & k & Hj). exists (S j), a, k. exact Hj.
  - intros _. exists 0%nat, a, k. reflexivity.
Qed.

Lemma pool_calm_not_deadlocked {hw : hardware} (p : pool hw) :
  pool_calm p -> deadlocked p = false.
Proof.
  intros Hc. unfold deadlocked.
  destruct (forallb finished (threads p)) eqn:Hf; [reflexivity|]. cbn [negb andb].
  apply negb_false_iff, existsb_exists.
  destruct (holder p) as [i|] eqn:Hh.
  - destruct (holder_next_action p i Hc Hh) as (a & k & Ht & Hq).
    exists i. split.
    + apply in_seq. split; [lia|]. cbn. apply nth_error_Some. congruence.
    + unfold can_move. rewrite Ht. destruct a; try discriminate Hq; reflexivity.
  - destruct (unfinished_thread _ Hf) as (j & a & k & Hj).
    exists j. split.
    + apply in_seq. split; [lia|]. cbn. apply nth_error_Some. congruence.
    + unfold can_move. rewrite Hj, Hh. destruct a; reflexivity.
Qed.

(** X17. The threads of the server never deadlock on the camera lock: in
    every state they can reach, either all of them have finished or one of
    them can take its next step. *)
Theorem server_threads_never_deadlock
  (hw : hardware) (w : world hw) (n m : nat)
  (handlers : list (list (writable * pyval))) (schedule : list nat) :
  deadlocked (run_schedule schedule (start w (server_threads n m handlers))) = false.
Proof.
  apply pool_calm_not_deadlocked, run_schedule_calm, start_calm, server_threads_calm.
Qed.

(** X18. While a thread of the server holds the camera lock, its next step
    is a camera call or its return, an access to [self], a log entry or the
    release: it never sleeps, talks to the bus, hands an update to the IO
    loop, starts a thread or takes the lock again while holding it. *)
Theorem lock_is_held_only_for_camera_calls
  (hw : hardware) (w : world hw) (n m : nat)
  (handlers : list (list (writable * pyval))) (schedule : list nat) :
  holder_is_quick (run_schedule schedule (start w (server_threads n m handlers))) = true.
Proof.
  set (p := run_schedule schedule (start w (server_threads n m handlers))).
  assert (Hc : pool_calm p)
    by (apply run_schedule_calm, start_calm, server_threads_calm).
  unfold holder_is_quick. destruct (holder p) as [i|] eqn:Hh; [|reflexivity].
  destruct (holder_next_action p i Hc Hh) as (a & k & -> & Hq). exact Hq.
Qed.

(** The same pool deadlocks on a thread that takes the lock twice, and lets
    a thread sleep under the lock. *)
Example taking_the_lock_twice_deadlocks :
  deadlocked (run_schedule [0; 0]%nat (start (fake_world [] []) [takes_lock_twice])) = true.
Proof. reflexivity. Qed.

Example sleeping_under_the_lock_is_seen :
  holder_is_quick
    (run_schedule [0]%nat (start (fake_world [] []) [sleeps_under_lock])) = false.
Proof. reflexivity. Qed.
